(** * pdftoword: the PDF-to-Word conversion endpoint ([api/convert.py])

    A shallow embedding of the Flask view [convert_pdf] and of the pieces of
    the Python runtime it calls, followed by the properties of the
    upload / validate / convert / cleanup life cycle.

    - Python [str] values are modelled as byte strings ([string]); the only
      case mapping the code relies on is the one of ASCII letters, because
      the extension is compared with the ASCII word [pdf] and no non-ASCII
      character lower-cases to [p], [d] or [f].
    - Python exceptions are modelled by their message ([str(e)]); every
      exception raised here derives from [Exception].
    - The file system, the generator of temporary names and the standard
      output form the mutable [World]; the collaborators whose behaviour the
      repository does not fix (upload saving, the pdf2docx converter,
      [os.unlink], the werkzeug file-name sanitiser) are fields of [Env]. *)

From Stdlib Require Import ZArith List String Ascii Bool Lia.
From stdpp Require Import gmap strings list fin_maps.

Open Scope string_scope.
Open Scope Z_scope.

(** ** Python strings *)

Module PyStr.

(** [c in s] for a one-character needle. *)
Fixpoint contains (c : ascii) (s : string) : bool :=
  match s with
  | EmptyString => false
  | String a r => if Ascii.eqb a c then true else contains c r
  end.

(** The split at the last occurrence of [sep], if there is one. *)
Fixpoint rpartition (sep : ascii) (s : string) : option (string * string) :=
  match s with
  | EmptyString => None
  | String a r =>
      match rpartition sep r with
      | Some (pre, post) => Some (String a pre, post)
      | None => if Ascii.eqb a sep then Some (EmptyString, r) else None
      end
  end.

(** [s.rsplit(sep, 1)]: at most one split, taken from the right. *)
Definition rsplit1 (sep : ascii) (s : string) : list string :=
  match rpartition sep s with
  | Some (pre, post) => [pre; post]
  | None => [s]
  end.

Definition lower_char (c : ascii) : ascii :=
  let n := N_of_ascii c in
  if ((65 <=? n) && (n <=? 90))%N then ascii_of_N (n + 32) else c.

(** [s.lower()]. *)
Fixpoint lower (s : string) : string :=
  match s with
  | EmptyString => EmptyString
  | String a r => String (lower_char a) (lower r)
  end.

(** [s.rfind(c)]: the highest index of [c] in [s], or [-1]. *)
Fixpoint rfind_from (i : Z) (c : ascii) (s : string) : Z :=
  match s with
  | EmptyString => -1
  | String a r =>
      let j := rfind_from (i + 1) c r in
      if 0 <=? j then j else if Ascii.eqb a c then i else -1
  end.

Definition rfind (c : ascii) (s : string) : Z := rfind_from 0 c s.

(** The slices [s[:i]] and [s[i:]] for [0 <= i]. *)
Fixpoint take (n : nat) (s : string) : string :=
  match n, s with
  | S k, String a r => String a (take k r)
  | _, _ => EmptyString
  end.

Fixpoint drop (n : nat) (s : string) : string :=
  match n, s with
  | S k, String _ r => drop k r
  | _, _ => s
  end.

End PyStr.

(** ** Outcomes and the handler monad *)

(** A Python computation either returns a value or raises; an exception is
    represented by its message. *)
Inductive Outcome (A : Type) : Type :=
| Ret (a : A)
| Raise (e : string).

Arguments Ret {A} a.
Arguments Raise {A} e.

(** What a request does to the outside, in program order. *)
Inductive Event : Type :=
| EvCreate (path : string)          (* a temporary file was created *)
| EvSave (path : string)            (* [file.save(path)] was called *)
| EvConvert (src dst : string) (error : option string)
                                    (* the converter was invoked; [Some e]: it raised [e] *)
| EvUnlink (path : string) (error : option string)
                                    (* [os.unlink(path)] was called; [Some e]: it raised [e] *)
| EvPrint (msg : string).           (* a line written by [print] *)

Record World : Type := mkWorld {
  fs : gmap string (list Byte.byte);   (* path -> content *)
  names : list string;                 (* random names still to be drawn *)
  trace : list Event
}.

Definition Py (A : Type) : Type := World -> Outcome A * World.

Definition ret {A} (a : A) : Py A := fun w => (Ret a, w).

Definition bind {A B} (m : Py A) (k : A -> Py B) : Py B := fun w =>
  match m w with
  | (Ret a, w1) => k a w1
  | (Raise e, w1) => (Raise e, w1)
  end.

Definition lift {A} (o : Outcome A) : Py A := fun w => (o, w).

Notation "'let*' x ':=' m 'in' k" := (bind m (fun x => k))
  (at level 10, x name, m at level 100, k at level 200).

Notation "m '>>' k" := (bind m (fun _ => k))
  (at level 90, right associativity).

(** [try: body except Exception as e: handler(e)]. *)
Definition try_except {A} (body : Py A) (handler : string -> Py A) : Py A :=
  fun w =>
    match body w with
    | (Ret a, w1) => (Ret a, w1)
    | (Raise e, w1) => handler e w1
    end.

(** [try: body finally: fin]. The [finally] block runs on every exit of the
    body, a [return] included; an exception leaving the block replaces the
    body's outcome. *)
Definition try_finally {A} (body : Py A) (fin : Py unit) : Py A :=
  fun w =>
    match body w with
    | (r, w1) =>
        match fin w1 with
        | (Ret _, w2) => (r, w2)
        | (Raise e, w2) => (Raise e, w2)
        end
    end.

Definition emit (e : Event) : Py unit := fun w =>
  (Ret tt, mkWorld (fs w) (names w) (trace w ++ [e])).

(** [print(msg)]. *)
Definition print (msg : string) : Py unit := emit (EvPrint msg).

(** ** [os.path.splitext] (POSIX flavour)

    The extension starts at the last dot of the last path component, unless
    that component consists of leading dots only up to there. *)

(** The loop [while filenameIndex < dotIndex] of [genericpath._splitext]:
    is there a character other than a dot in [p[filenameIndex:dotIndex]]. *)
Fixpoint splitext_scan (fuel : nat) (p : string) (filenameIndex dotIndex : Z) : bool :=
  match fuel with
  | O => false
  | S k =>
      if filenameIndex <? dotIndex then
        match String.get (Z.to_nat filenameIndex) p with
        | Some c =>
            if negb (Ascii.eqb c ".") then true
            else splitext_scan k p (filenameIndex + 1) dotIndex
        | None => true
        end
      else false
  end.

Definition splitext (p : string) : string * string :=
  let sepIndex := PyStr.rfind "/" p in
  let dotIndex := PyStr.rfind "." p in
  if (dotIndex >? sepIndex)
       && splitext_scan (String.length p) p (sepIndex + 1) dotIndex
  then (PyStr.take (Z.to_nat dotIndex) p, PyStr.drop (Z.to_nat dotIndex) p)
  else (p, "").

(** ** Requests and responses *)

(** A werkzeug [FileStorage]: the claimed name and the uploaded stream. *)
Record FileStorage : Type := mkFile {
  filename : string;
  stream : list Byte.byte;
  position : Z
}.

Inductive Whence : Type := SEEK_SET | SEEK_END.

(** [file.seek(offset, whence)]. *)
Definition seek (offset : Z) (whence : Whence) (file : FileStorage) : FileStorage :=
  match whence with
  | SEEK_SET => mkFile (filename file) (stream file) offset
  | SEEK_END =>
      mkFile (filename file) (stream file) (Z.of_nat (length (stream file)) + offset)
  end.

(** [file.tell()]. *)
Definition tell (file : FileStorage) : Z := position file.

Record Request : Type := mkRequest {
  path : string;
  method : string;
  files : gmap string FileStorage      (* [request.files] *)
}.

Inductive JValue : Type :=
| JBool (b : bool)
| JStr (s : string).

Inductive Body : Type :=
| JsonBody (obj : list (string * JValue))
| FileBody (data : list Byte.byte)
| HtmlBody.                             (* a framework error page *)

Record Response : Type := mkResponse {
  status : Z;
  content_type : string;
  disposition : option string;          (* [Some n]: attachment named [n] *)
  headers : list (string * string);     (* added with [headers.add] *)
  body : Body
}.

(** [jsonify(obj)]. *)
Definition jsonify (obj : list (string * JValue)) : Response :=
  mkResponse 200 "application/json" None [] (JsonBody obj).

(** The view result [(response, code)]. *)
Definition with_status (code : Z) (r : Response) : Response :=
  mkResponse code (content_type r) (disposition r) (headers r) (body r).

(** [response.headers.add(key, value)]. *)
Definition add_header (key value : string) (r : Response) : Response :=
  mkResponse (status r) (content_type r) (disposition r)
    (headers r ++ [(key, value)]) (body r).

(** ** The collaborators *)

Inductive Conversion : Type :=
| Converted (docx : list Byte.byte)
| ConversionError (written : list Byte.byte) (msg : string).

Record Env : Type := mkEnv {
  (* [werkzeug.utils.secure_filename] *)
  secure_filename : string -> string;
  (* [Some e]: writing the upload to disk raises [e] *)
  save_error : option string;
  (* pdf2docx on the bytes of the source, with [start] and [end] *)
  converter : list Byte.byte -> Z -> option Z -> Conversion;
  (* [Some e]: [os.unlink] of that path raises [e] *)
  unlink_error : string -> option string
}.

Definition tempdir : string := "/tmp/tmp".

(** The search of [tempfile] for a name that is not taken. *)
Fixpoint mkstemp_inner (candidates : list string) (suffix : string)
    (disk : gmap string (list Byte.byte)) : option (string * list string) :=
  match candidates with
  | [] => None
  | n :: rest =>
      let file := tempdir +:+ n +:+ suffix in
      match disk !! file with
      | Some _ => mkstemp_inner rest suffix disk
      | None => Some (file, rest)
      end
  end.

(** [tempfile.NamedTemporaryFile(delete=False, suffix=suffix)], as the name
    of the empty file it creates. Closing the handle leaves the file. *)
Definition NamedTemporaryFile (suffix : string) : Py string := fun w =>
  match mkstemp_inner (names w) suffix (fs w) with
  | Some (file, rest) =>
      (Ret file, mkWorld (<[file := []]> (fs w)) rest (trace w ++ [EvCreate file]))
  | None =>
      (Raise "[Errno 17] No usable temporary file name found",
       mkWorld (fs w) [] (trace w))
  end.

(** [file.save(dst)]: the stream from its position on is written to [dst]. *)
Definition save (env : Env) (file : FileStorage) (dst : string) : Py unit := fun w =>
  match save_error env with
  | Some e => (Raise e, mkWorld (fs w) (names w) (trace w ++ [EvSave dst]))
  | None =>
      (Ret tt,
       mkWorld (<[dst := List.skipn (Z.to_nat (position file)) (stream file)]> (fs w))
         (names w) (trace w ++ [EvSave dst]))
  end.

(** The object built by [Converter(pdf_path)]. *)
Record ConverterObj : Type := mkConverter {
  cv_path : string;
  cv_document : list Byte.byte
}.

(** [Converter(pdf_path)]: the document is opened and read. *)
Definition Converter (pdf_path : string) : Py ConverterObj := fun w =>
  match fs w !! pdf_path with
  | Some pdf => (Ret (mkConverter pdf_path pdf), w)
  | None => (Raise ("no such file: " +:+ pdf_path), w)
  end.

(** [cv.convert(docx_path, start, end)]. *)
Definition convert (env : Env) (cv : ConverterObj) (docx_path : string)
    (start : Z) (end_ : option Z) : Py unit := fun w =>
  match converter env (cv_document cv) start end_ with
  | Converted docx =>
      (Ret tt,
       mkWorld (<[docx_path := docx]> (fs w)) (names w)
         (trace w ++ [EvConvert (cv_path cv) docx_path None]))
  | ConversionError written msg =>
      (Raise msg,
       mkWorld (<[docx_path := written]> (fs w)) (names w)
         (trace w ++ [EvConvert (cv_path cv) docx_path (Some msg)]))
  end.

(** [cv.close()]. *)
Definition close (cv : ConverterObj) : Py unit := ret tt.

(** [send_file(path, as_attachment=True, download_name=..., mimetype=...)]:
    the file is opened at the call, so the body is its content then. *)
Definition send_file (file : string) (download_name mimetype : string) : Py Response :=
  fun w =>
    match fs w !! file with
    | Some data =>
        (Ret (mkResponse 200 mimetype (Some download_name) [] (FileBody data)), w)
    | None => (Raise ("[Errno 2] No such file or directory: " +:+ file), w)
    end.

(** [os.path.exists(p)]. *)
Definition path_exists (p : string) : Py bool := fun w =>
  (Ret (bool_decide (is_Some (fs w !! p))), w).

(** [os.unlink(p)]. *)
Definition unlink (env : Env) (p : string) : Py unit := fun w =>
  match fs w !! p with
  | None =>
      let e := "[Errno 2] No such file or directory: " +:+ p in
      (Raise e, mkWorld (fs w) (names w) (trace w ++ [EvUnlink p (Some e)]))
  | Some _ =>
      match unlink_error env p with
      | Some e => (Raise e, mkWorld (fs w) (names w) (trace w ++ [EvUnlink p (Some e)]))
      | None => (Ret tt, mkWorld (delete p (fs w)) (names w) (trace w ++ [EvUnlink p None]))
      end
  end.

(** ** The module [api/convert.py] *)

Definition MAX_FILE_SIZE : Z := 10 * 1024 * 1024.

Definition ALLOWED_EXTENSIONS : gset string := {["pdf"]}.

(** [allowed_file(filename)]. The conjunction is lazy: the subscript [[1]]
    is evaluated only when the name has a dot. *)
Definition allowed_file (filename : string) : Outcome bool :=
  if negb (PyStr.contains "." filename) then Ret false
  else
    match PyStr.rsplit1 "." filename !! 1%nat with
    | Some ext => Ret (bool_decide (PyStr.lower ext ∈ ALLOWED_EXTENSIONS))
    | None => Raise "list index out of range"
    end.

Definition docx_mimetype : string :=
  "application/vnd.openxmlformats-officedocument.wordprocessingml.document".

(** The JSON object of an error answer. *)
Definition failure (msg : string) : Response :=
  jsonify [("success", JBool false); ("error", JStr msg)].

(** The body of the innermost [try] of the [finally] block (lines 89-93). *)
Definition remove_temporaries (env : Env) (pdf_path docx_path : string) : Py unit :=
  let* pdf_there := path_exists pdf_path in
  (if pdf_there then unlink env pdf_path else ret tt) >>
  let* docx_there := path_exists docx_path in
  (if docx_there then unlink env docx_path else ret tt).

(** The [finally] block (lines 87-95). *)
Definition cleanup (env : Env) (pdf_path docx_path : string) : Py unit :=
  try_except (remove_temporaries env pdf_path docx_path)
    (fun cleanup_error => print ("Cleanup error: " +:+ cleanup_error)).

(** The body of the inner [try] (lines 69-85). *)
Definition convert_and_send (env : Env) (base_name pdf_path docx_path : string)
    : Py Response :=
  let* cv := Converter pdf_path in
  convert env cv docx_path 0 None >>
  close cv >>
  let* response := send_file docx_path (base_name +:+ ".docx") docx_mimetype in
  ret (add_header "Access-Control-Allow-Origin" "*" response).

(** Staging, conversion and cleanup of a validated upload (lines 56-95). *)
Definition stage_and_convert (env : Env) (file : FileStorage) : Py Response :=
  let original_filename := secure_filename env (filename file) in
  let base_name := fst (splitext original_filename) in
  let* pdf_path :=
    (let* pdf_temp := NamedTemporaryFile ".pdf" in
     save env file pdf_temp >> ret pdf_temp) in
  let* docx_path := NamedTemporaryFile ".docx" in
  try_finally (convert_and_send env base_name pdf_path docx_path)
    (cleanup env pdf_path docx_path).

(** The statements guarded by the outer [try] (lines 36-95). *)
Definition convert_pdf_body (env : Env) (request : Request) : Py Response :=
  match files request !! "file" with
  | None => ret (with_status 400 (failure "No file uploaded"))
  | Some file =>
      if String.eqb (filename file) EmptyString then
        ret (with_status 400 (failure "No file selected"))
      else
        let* allowed := lift (allowed_file (filename file)) in
        if negb allowed then
          ret (with_status 400 (failure "Only PDF files are allowed"))
        else
          let file := seek 0 SEEK_END file in
          let file_size := tell file in
          let file := seek 0 SEEK_SET file in
          if file_size >? MAX_FILE_SIZE then
            ret (with_status 400 (failure "File size exceeds 10MB limit"))
          else stage_and_convert env file
  end.

(** The outer [except] clause (lines 97-102). *)
Definition conversion_failed (e : string) : Py Response :=
  print ("Conversion error: " +:+ e) >>
  ret (with_status 500 (failure ("Conversion failed: " +:+ e))).

(** The view function [convert_pdf]. *)
Definition convert_pdf (env : Env) (request : Request) : Py Response :=
  if String.eqb (method request) "OPTIONS" then
    let response := jsonify [("status", JStr "ok")] in
    let response := add_header "Access-Control-Allow-Origin" "*" response in
    let response := add_header "Access-Control-Allow-Headers" "Content-Type" response in
    let response := add_header "Access-Control-Allow-Methods" "POST" response in
    ret response
  else try_except (convert_pdf_body env request) conversion_failed.

(** ** Routing: [@app.route('/api/convert', methods=['POST', 'OPTIONS'])] *)

Definition route_rule : string := "/api/convert".

Definition route_methods : list string := ["POST"; "OPTIONS"].

Definition not_found : Response := mkResponse 404 "text/html" None [] HtmlBody.

Definition method_not_allowed : Response := mkResponse 405 "text/html" None [] HtmlBody.

(** [app.full_dispatch_request()] for the one rule of the application: an
    unknown URL is answered 404, a known URL with another method 405. *)
Definition full_dispatch_request (env : Env) (request : Request) : Py Response :=
  if String.eqb (path request) route_rule then
    if bool_decide (method request ∈ route_methods) then convert_pdf env request
    else ret method_not_allowed
  else ret not_found.

(** [handler(event, context)]. *)
Definition handler (env : Env) (event : Request) : Py Response :=
  full_dispatch_request env event.

(** ** Observations on a run *)

(** The events a computation added to the trace of [w]. *)
Definition events_since (w w' : World) : list Event :=
  List.skipn (length (trace w)) (trace w').

(** The answer of the view, the events of the request and the disk it
    leaves behind. *)
Definition answer (env : Env) (request : Request) (w : World) : Outcome Response :=
  fst (convert_pdf env request w).

Definition request_events (env : Env) (request : Request) (w : World) : list Event :=
  events_since w (snd (convert_pdf env request w)).

Definition disk_after (env : Env) (request : Request) (w : World)
    : gmap string (list Byte.byte) :=
  fs (snd (convert_pdf env request w)).

Definition is_conversion (e : Event) : bool :=
  match e with
  | EvConvert _ _ _ => true
  | _ => false
  end.

(** An answer without content. *)
Definition empty_body (b : Body) : bool :=
  match b with
  | JsonBody [] => true
  | FileBody [] => true
  | _ => false
  end.

(** The same collaborators, with another behaviour of [os.unlink]. *)
Definition with_unlink_error (env : Env) (u : string -> option string) : Env :=
  mkEnv (secure_filename env) (save_error env) (converter env) u.

(** The name has a last dot, and what follows it is [pdf] in some case. *)
Definition has_pdf_extension (name : string) : Prop :=
  exists pre ext : string,
    name = pre +:+ String "." ext
    /\ ~ In "."%char (list_ascii_of_string ext)
    /\ PyStr.lower ext = "pdf".

(** The measured length of an upload. *)
Definition upload_size (file : FileStorage) : Z := Z.of_nat (length (stream file)).

(** ** Scenarios *)

Module Scenario.

Definition pdf_bytes : list Byte.byte := [Byte.x25; Byte.x50; Byte.x44; Byte.x46].

Definition docx_bytes : list Byte.byte := [Byte.x50; Byte.x4b; Byte.x03; Byte.x04].

(** Every collaborator works; the uploaded names are made of safe
    characters, which the sanitiser keeps. *)
Definition env_ok : Env :=
  mkEnv (fun s => s) None (fun _ _ _ => Converted docx_bytes) (fun _ => None).

(** The converter rejects the document after writing one byte. *)
Definition env_bad_pdf : Env :=
  mkEnv (fun s => s) None
    (fun _ _ _ => ConversionError [Byte.x50] "bad xref") (fun _ => None).

(** Temporary files cannot be removed. *)
Definition env_busy : Env :=
  with_unlink_error env_ok (fun _ => Some "[Errno 16] Device or resource busy").

Definition w0 : World := mkWorld ∅ ["a1"; "b2"; "c3"] [].

Definition upload (url name : string) : Request :=
  mkRequest url "POST" {[ "file" := mkFile name pdf_bytes 0 ]}.

Definition preflight : Request := mkRequest "/api/convert" "OPTIONS" ∅.

(** A POST whose form has no field [file]. *)
Definition no_file : Request := mkRequest "/api/convert" "POST" ∅.

End Scenario.

(** ** Further scenarios *)

(** The request [req] with [file] in the form field [file]. *)
Definition with_upload (req : Request) (file : FileStorage) : Request :=
  mkRequest (path req) (method req) (<["file" := file]> (files req)).

Module Cases.

Definition disk_full_message : string := "[Errno 28] No space left on device".

(** The disk is full: the upload cannot be written. *)
Definition env_no_space : Env :=
  mkEnv (fun s => s) (Some disk_full_message)
    (fun _ _ _ => Converted Scenario.docx_bytes) (fun _ => None).

(** Only the result file cannot be removed. *)
Definition env_docx_busy : Env :=
  with_unlink_error Scenario.env_ok
    (fun p => if String.eqb p "/tmp/tmpb2.docx" then Some "[Errno 13] Permission denied"
              else None).

(** A disk on which the first candidate name is taken by another file. *)
Definition w_taken : World :=
  mkWorld {[ "/tmp/tmpa1.pdf" := [Byte.x01; Byte.x02] ]} ["a1"; "b2"; "c3"] [].

(** An upload whose stream was read to the end before the view ran. *)
Definition consumed_upload : FileStorage := mkFile "Report.PDF" Scenario.pdf_bytes 4.

(** A request with a method the route does not list. *)
Definition get_request : Request := mkRequest "/api/convert" "GET" ∅.

End Cases.

(** ** Proof steps *)

(** Reduce the projections of the records met while a run is unfolded. *)
Ltac run_step :=
  cbn [fs names trace fst snd position stream filename cv_path cv_document].

(** Break a membership in an explicit list of events into its cases and drop
    the cases in which the constructors differ. *)
Ltac split_events H :=
  cbn [In app] in H;
  repeat match type of H with
         | _ \/ _ => destruct H as [H|H]
         | False => destruct H
         | _ = _ => first [discriminate H | injection H as H]
         end.

(** * Properties *)

(** ** Strings *)

Section StringFacts.

Variable sep : ascii.

Lemma contains_In (s : string) :
  PyStr.contains sep s = true <-> In sep (list_ascii_of_string s).
Proof.
  induction s as [|a r IH]; simpl.
  - split; [discriminate | tauto].
  - destruct (Ascii.eqb_spec a sep) as [->|Hne].
    + split; auto.
    + rewrite IH. split; [auto | intros [E | H]; [congruence | exact H]].
Qed.

Lemma contains_false_In (s : string) :
  PyStr.contains sep s = false <-> ~ In sep (list_ascii_of_string s).
Proof.
  rewrite <- contains_In. destruct (PyStr.contains sep s); split; intros H;
    try reflexivity; try discriminate; congruence.
Qed.

Lemma rpartition_None (s : string) :
  PyStr.rpartition sep s = None <-> PyStr.contains sep s = false.
Proof.
  induction s as [|a r IH]; simpl.
  - tauto.
  - destruct (PyStr.rpartition sep r) as [[pre post]|].
    + destruct (PyStr.contains sep r).
      * destruct (Ascii.eqb a sep); split; discriminate.
      * destruct IH as [_ IH]. discriminate (IH eq_refl).
    + destruct IH as [IH _]. rewrite (IH eq_refl).
      destruct (Ascii.eqb a sep); split; (reflexivity || discriminate).
Qed.

Lemma contains_append (s t : string) :
  PyStr.contains sep (s +:+ t) = PyStr.contains sep s || PyStr.contains sep t.
Proof.
  induction s as [|a r IH]; simpl; [reflexivity|].
  destruct (Ascii.eqb a sep); [reflexivity | exact IH].
Qed.

Lemma rpartition_append (pre post : string) :
  PyStr.contains sep post = false ->
  PyStr.rpartition sep (pre +:+ String sep post) = Some (pre, post).
Proof.
  intros Hpost. induction pre as [|a r IH]; simpl.
  - apply rpartition_None in Hpost. rewrite Hpost.
    rewrite Ascii.eqb_refl. reflexivity.
  - simpl in IH. rewrite IH. reflexivity.
Qed.

Lemma rpartition_Some (s pre post : string) :
  PyStr.rpartition sep s = Some (pre, post) ->
  s = pre +:+ String sep post /\ PyStr.contains sep post = false.
Proof.
  revert pre. induction s as [|a r IH]; simpl; intros pre H; [discriminate|].
  destruct (PyStr.rpartition sep r) as [[pre' post']|] eqn:E.
  - inversion H; subst. destruct (IH pre' eq_refl) as [-> Hc].
    split; [reflexivity | exact Hc].
  - destruct (Ascii.eqb_spec a sep) as [->|]; [|discriminate].
    inversion H; subst. split; [reflexivity|].
    apply rpartition_None. exact E.
Qed.

End StringFacts.

(** [allowed_file] never raises: the subscript is guarded by the test for a
    dot. *)
Lemma allowed_file_total (name : string) :
  exists b : bool, allowed_file name = Ret b.
Proof.
  unfold allowed_file, PyStr.rsplit1.
  destruct (PyStr.contains "." name) eqn:Hc; simpl; [|eauto].
  destruct (PyStr.rpartition "." name) as [[pre post]|] eqn:E; simpl; [eauto|].
  apply rpartition_None in E. congruence.
Qed.

Lemma allowed_file_dotless (name : string) :
  PyStr.contains "." name = false -> allowed_file name = Ret false.
Proof. intros H. unfold allowed_file. rewrite H. reflexivity. Qed.

Lemma allowed_file_true_iff (name : string) :
  allowed_file name = Ret true <-> has_pdf_extension name.
Proof.
  unfold allowed_file, PyStr.rsplit1, has_pdf_extension. split.
  - destruct (PyStr.contains "." name) eqn:Hc; simpl; [|discriminate].
    destruct (PyStr.rpartition "." name) as [[pre post]|] eqn:E; simpl;
      [|discriminate].
    intros H. apply rpartition_Some in E as [-> Hpost].
    exists pre, post. split; [reflexivity|]. split.
    + apply contains_false_In. exact Hpost.
    + assert (Hb : bool_decide (PyStr.lower post ∈ ALLOWED_EXTENSIONS) = true)
        by congruence.
      apply bool_decide_eq_true in Hb.
      unfold ALLOWED_EXTENSIONS in Hb. apply elem_of_singleton in Hb. exact Hb.
  - intros (pre & ext & -> & Hdot & Hlow).
    apply contains_false_In in Hdot.
    rewrite contains_append. simpl. rewrite orb_true_r. simpl.
    rewrite (rpartition_append _ _ _ Hdot). simpl.
    f_equal. apply bool_decide_eq_true. unfold ALLOWED_EXTENSIONS.
    apply elem_of_singleton. exact Hlow.
Qed.

Lemma allowed_file_cases (name : string) :
  (allowed_file name = Ret true /\ has_pdf_extension name)
  \/ (allowed_file name = Ret false /\ ~ has_pdf_extension name).
Proof.
  destruct (allowed_file_total name) as [[|] Hb].
  - left. split; [exact Hb | apply allowed_file_true_iff; exact Hb].
  - right. split; [exact Hb|]. intros H. apply allowed_file_true_iff in H.
    congruence.
Qed.

(** ** The steps of a request *)

Lemma mkstemp_inner_fresh (candidates : list string) (suffix : string)
    (disk : gmap string (list Byte.byte)) (file : string) (rest : list string) :
  mkstemp_inner candidates suffix disk = Some (file, rest) -> disk !! file = None.
Proof.
  induction candidates as [|n cs IH]; simpl; [discriminate|].
  destruct (disk !! (tempdir +:+ n +:+ suffix)) eqn:E.
  - exact IH.
  - intros H. inversion H; subst. exact E.
Qed.

Lemma post_is_not_options (request : Request) :
  method request = "POST" -> String.eqb (method request) "OPTIONS" = false.
Proof. intros ->. reflexivity. Qed.

Lemma name_not_empty (name : string) :
  name <> EmptyString -> String.eqb name EmptyString = false.
Proof. intros H. apply String.eqb_neq. exact H. Qed.

(** The cleanup never raises. *)
Lemma cleanup_returns (env : Env) (p d : string) (w : World) :
  exists w', cleanup env p d w = (Ret tt, w').
Proof.
  unfold cleanup, try_except, remove_temporaries, bind, path_exists, unlink,
    print, emit, ret.
  repeat (cbn [fs names trace];
    match goal with
    | |- context [bool_decide ?P] => destruct (bool_decide P)
    | |- context [match ?m !! ?k with _ => _ end] => destruct (m !! k)
    | |- context [unlink_error ?e ?q] => destruct (unlink_error e q)
    end);
  cbn [fs names trace]; eauto.
Qed.

(** Hence the [finally] block hands on the outcome of the guarded body. *)
Lemma try_finally_cleanup {A} (body : Py A) (env : Env) (p d : string) (w : World) :
  fst (try_finally body (cleanup env p d) w) = fst (body w).
Proof.
  unfold try_finally. destruct (body w) as [r w1].
  destruct (cleanup_returns env p d w1) as [w2 ->]. reflexivity.
Qed.

(** What the cleanup does once both temporary files are on disk. *)
Lemma cleanup_shape (env : Env) (p d : string) (w : World) :
  is_Some (fs w !! p) -> is_Some (fs w !! d) -> p <> d ->
  exists disk cevs,
    cleanup env p d w = (Ret tt, mkWorld disk (names w) (trace w ++ cevs))
    /\ ((unlink_error env p = None /\ unlink_error env d = None
         /\ disk = delete d (delete p (fs w))
         /\ cevs = [EvUnlink p None; EvUnlink d None])
        \/ (exists e, unlink_error env p = Some e
              /\ disk = fs w
              /\ cevs = [EvUnlink p (Some e); EvPrint ("Cleanup error: " +:+ e)])
        \/ (exists e, unlink_error env p = None /\ unlink_error env d = Some e
              /\ disk = delete p (fs w)
              /\ cevs = [EvUnlink p None; EvUnlink d (Some e);
                         EvPrint ("Cleanup error: " +:+ e)])).
Proof.
  intros [cp Hp] [cd Hd] Hne.
  unfold cleanup, try_except, remove_temporaries, bind, path_exists, unlink,
    print, emit, ret.
  run_step. rewrite Hp.
  rewrite (bool_decide_eq_true_2 (is_Some (Some cp))) by eauto.
  run_step. rewrite Hp.
  destruct (unlink_error env p) as [e|] eqn:Ep; run_step.
  - exists (fs w), [EvUnlink p (Some e); EvPrint ("Cleanup error: " +:+ e)].
    rewrite <- app_assoc. split; [reflexivity|]. right; left. eauto.
  - rewrite (lookup_delete_ne (fs w) p d Hne), Hd.
    rewrite (bool_decide_eq_true_2 (is_Some (Some cd))) by eauto.
    run_step. rewrite (lookup_delete_ne (fs w) p d Hne), Hd.
    destruct (unlink_error env d) as [e|] eqn:Ed; run_step.
    + exists (delete p (fs w)),
        [EvUnlink p None; EvUnlink d (Some e); EvPrint ("Cleanup error: " +:+ e)].
      rewrite <- !app_assoc. split; [reflexivity|]. right; right. eauto.
    + exists (delete d (delete p (fs w))), [EvUnlink p None; EvUnlink d None].
      rewrite <- !app_assoc. split; [reflexivity|]. left. eauto.
Qed.

(** The answer built after a successful conversion. *)
Lemma convert_and_send_shape (env : Env) (base p d : string) (w : World)
    (data : list Byte.byte) :
  fs w !! p = Some data ->
  match converter env data 0 None with
  | Converted docx =>
      convert_and_send env base p d w =
        (Ret (mkResponse 200 docx_mimetype (Some (base +:+ ".docx"))
                [("Access-Control-Allow-Origin", "*")] (FileBody docx)),
         mkWorld (<[d := docx]> (fs w)) (names w)
           (trace w ++ [EvConvert p d None]))
  | ConversionError written msg =>
      convert_and_send env base p d w =
        (Raise msg,
         mkWorld (<[d := written]> (fs w)) (names w)
           (trace w ++ [EvConvert p d (Some msg)]))
  end.
Proof.
  intros Hp.
  unfold convert_and_send, bind, Converter, convert, close, send_file, ret.
  rewrite Hp. run_step.
  destruct (converter env data 0 None) as [docx|written msg]; run_step.
  - rewrite lookup_insert_eq. reflexivity.
  - reflexivity.
Qed.

(** Staging either fails before the second temporary file exists, or leaves
    two distinct fresh files and enters the guarded conversion. *)
Lemma staging_shape (env : Env) (file : FileStorage) (w : World) :
  position file = 0 ->
  (exists e evs w1,
     stage_and_convert env file w = (Raise e, w1)
     /\ trace w1 = (trace w ++ evs)%list
     /\ (evs = [] \/ exists p, evs = [EvCreate p; EvSave p]))
  \/ (exists p d rest,
        p <> d /\ fs w !! p = None /\ fs w !! d = None
        /\ stage_and_convert env file w =
             try_finally
               (convert_and_send env
                  (fst (splitext (secure_filename env (filename file)))) p d)
               (cleanup env p d)
               (mkWorld (<[d := []]> (<[p := stream file]> (fs w))) rest
                  (trace w ++ [EvCreate p; EvSave p; EvCreate d]))).
Proof.
  intros Hpos.
  unfold stage_and_convert, bind, NamedTemporaryFile, save, ret. run_step.
  destruct (mkstemp_inner (names w) ".pdf" (fs w)) as [[p rest]|] eqn:Hp;
    run_step.
  - destruct (save_error env) as [e|] eqn:Hs; run_step.
    + left. exists e, [EvCreate p; EvSave p]. eexists. split; [reflexivity|].
      run_step. rewrite <- app_assoc. split; [reflexivity | eauto].
    + rewrite Hpos. change (List.skipn (Z.to_nat 0) (stream file)) with (stream file).
      rewrite insert_insert_eq.
      destruct (mkstemp_inner rest ".docx" (<[p := stream file]> (fs w)))
        as [[d rest']|] eqn:Hd; run_step.
      * right. exists p, d, rest'.
        apply mkstemp_inner_fresh in Hp, Hd.
        assert (Hne : p <> d).
        { intros ->. rewrite lookup_insert_eq in Hd. discriminate. }
        rewrite lookup_insert_ne in Hd by exact Hne.
        repeat split; try assumption.
        rewrite <- !app_assoc. reflexivity.
      * left. eexists _, [EvCreate p; EvSave p]. eexists. split; [reflexivity|].
        run_step. rewrite <- app_assoc. split; [reflexivity | eauto].
  - left. eexists _, []. eexists. split; [reflexivity|].
    run_step. rewrite app_nil_r. split; [reflexivity | eauto].
Qed.

Lemma staged_disk_restored (disk : gmap string (list Byte.byte)) (p d : string)
    (data x : list Byte.byte) :
  p <> d -> disk !! p = None -> disk !! d = None ->
  delete d (delete p (<[d := x]> (<[d := []]> (<[p := data]> disk)))) = disk.
Proof.
  intros Hne Hp Hd.
  rewrite insert_insert_eq.
  rewrite (delete_insert_ne _ p d x Hne).
  rewrite (delete_insert_eq disk p data), (delete_id disk p Hp).
  rewrite delete_insert_eq. apply delete_id. exact Hd.
Qed.

(** The cleanup after a conversion that wrote [x] to the result file. *)
Lemma staged_cleanup (env : Env) (p d : string) (x data : list Byte.byte)
    (disk0 : gmap string (list Byte.byte)) (nm : list string) (tr : list Event) :
  p <> d -> disk0 !! p = None -> disk0 !! d = None ->
  exists disk cevs,
    cleanup env p d
      (mkWorld (<[d := x]> (<[d := []]> (<[p := data]> disk0))) nm tr)
    = (Ret tt, mkWorld disk nm (tr ++ cevs))
    /\ ((unlink_error env p = None /\ unlink_error env d = None
         /\ cevs = [EvUnlink p None; EvUnlink d None]
         /\ disk = disk0)
        \/ (exists e, unlink_error env p = Some e
              /\ cevs = [EvUnlink p (Some e); EvPrint ("Cleanup error: " +:+ e)]
              /\ is_Some (disk !! p) /\ is_Some (disk !! d))
        \/ (exists e, unlink_error env p = None /\ unlink_error env d = Some e
              /\ cevs = [EvUnlink p None; EvUnlink d (Some e);
                         EvPrint ("Cleanup error: " +:+ e)]
              /\ disk !! p = None /\ is_Some (disk !! d))).
Proof.
  intros Hne Hp Hd.
  set (w3 := mkWorld (<[d := x]> (<[d := []]> (<[p := data]> disk0))) nm tr).
  assert (H3p : fs w3 !! p = Some data).
  { subst w3. run_step.
    rewrite !lookup_insert_ne by congruence. apply lookup_insert_eq. }
  assert (H3d : fs w3 !! d = Some x).
  { subst w3. run_step. apply lookup_insert_eq. }
  destruct (cleanup_shape env p d w3) as (disk & cevs & Hrun & Hcases);
    [eauto | eauto | exact Hne |].
  exists disk, cevs. split; [exact Hrun|].
  destruct Hcases as [(Ep & Ed & -> & ->) | [(e & Ep & -> & ->) | (e & Ep & Ed & -> & ->)]].
  - left. repeat split; try assumption.
    subst w3. run_step. apply staged_disk_restored; assumption.
  - right; left. exists e. repeat split; eauto.
  - right; right. exists e. repeat split; try assumption.
    + apply lookup_delete_eq.
    + rewrite lookup_delete_ne by exact Hne. eauto.
Qed.

Lemma events_since_app (w : World) (disk : gmap string (list Byte.byte))
    (nm : list string) (evs : list Event) :
  events_since w (mkWorld disk nm (trace w ++ evs)) = evs.
Proof. unfold events_since. run_step. apply drop_app_length. Qed.

Lemma events_since_refl (w : World) : events_since w w = [].
Proof. unfold events_since. apply drop_all. Qed.

(** The run of a validated upload, path by path: either staging fails, or
    two fresh temporary files are created, the converter is invoked once and
    the cleanup follows. *)
Lemma staged_run (env : Env) (file : FileStorage) (w : World) :
  position file = 0 ->
  (exists e evs w',
     try_except (stage_and_convert env file) conversion_failed w =
       (Ret (with_status 500 (failure ("Conversion failed: " +:+ e))), w')
     /\ events_since w w' = (evs ++ [EvPrint ("Conversion error: " +:+ e)])%list
     /\ (evs = [] \/ exists p, evs = [EvCreate p; EvSave p]))
  \/ (exists p d r cevs tail resp w',
        p <> d /\ fs w !! p = None /\ fs w !! d = None
        /\ try_except (stage_and_convert env file) conversion_failed w = (Ret resp, w')
        /\ events_since w w' =
             ([EvCreate p; EvSave p; EvCreate d; EvConvert p d r] ++ cevs ++ tail)%list
        /\ ((exists docx,
               converter env (stream file) 0 None = Converted docx
               /\ r = None /\ tail = []
               /\ resp =
                    mkResponse 200 docx_mimetype
                      (Some (fst (splitext (secure_filename env (filename file)))
                             +:+ ".docx"))
                      [("Access-Control-Allow-Origin", "*")] (FileBody docx))
            \/ (exists written msg,
                  converter env (stream file) 0 None = ConversionError written msg
                  /\ r = Some msg
                  /\ tail = [EvPrint ("Conversion error: " +:+ msg)]
                  /\ resp = with_status 500 (failure ("Conversion failed: " +:+ msg))))
        /\ ((unlink_error env p = None /\ unlink_error env d = None
             /\ cevs = [EvUnlink p None; EvUnlink d None]
             /\ fs w' = fs w)
            \/ (exists e, unlink_error env p = Some e
                  /\ cevs = [EvUnlink p (Some e); EvPrint ("Cleanup error: " +:+ e)]
                  /\ is_Some (fs w' !! p) /\ is_Some (fs w' !! d))
            \/ (exists e, unlink_error env p = None /\ unlink_error env d = Some e
                  /\ cevs = [EvUnlink p None; EvUnlink d (Some e);
                             EvPrint ("Cleanup error: " +:+ e)]
                  /\ fs w' !! p = None /\ is_Some (fs w' !! d)))).
Proof.
  intros Hpos.
  destruct (staging_shape env file w Hpos)
    as [(e & evs & w1 & Hrun & Htr & Hevs)
       | (p & d & rest & Hne & Hfp & Hfd & Hrun)].
  - left. exists e, evs. unfold try_except. rewrite Hrun.
    unfold conversion_failed, bind, print, emit, ret. run_step.
    eexists. split; [reflexivity|]. split; [|exact Hevs].
    rewrite Htr, <- app_assoc. apply events_since_app.
  - right. unfold try_except. rewrite Hrun. clear Hrun. unfold try_finally.
    set (base := fst (splitext (secure_filename env (filename file)))).
    set (w2 := mkWorld (<[d := []]> (<[p := stream file]> (fs w))) rest
                 (trace w ++ [EvCreate p; EvSave p; EvCreate d])).
    assert (H2p : fs w2 !! p = Some (stream file)).
    { subst w2. run_step. rewrite lookup_insert_ne by congruence.
      apply lookup_insert_eq. }
    pose proof (convert_and_send_shape env base p d w2 (stream file) H2p) as Hcs.
    destruct (converter env (stream file) 0 None) as [docx|written msg] eqn:Hconv;
      rewrite Hcs; clear Hcs; subst w2; run_step.
    + destruct (staged_cleanup env p d docx (stream file) (fs w) rest
                  (trace w ++ [EvCreate p; EvSave p; EvCreate d; EvConvert p d None])
                  Hne Hfp Hfd) as (disk & cevs & Hclean & Hcases).
      rewrite <- app_assoc. cbn [app]. rewrite Hclean.
      exists p, d, None, cevs, []. do 2 eexists.
      split; [exact Hne|]. split; [exact Hfp|]. split; [exact Hfd|].
      split; [reflexivity|]. split.
      { rewrite app_nil_r, <- app_assoc. apply events_since_app. }
      split; [left; exists docx; auto|]. run_step. exact Hcases.
    + destruct (staged_cleanup env p d written (stream file) (fs w) rest
                  (trace w ++ [EvCreate p; EvSave p; EvCreate d;
                               EvConvert p d (Some msg)])
                  Hne Hfp Hfd) as (disk & cevs & Hclean & Hcases).
      rewrite <- app_assoc. cbn [app]. rewrite Hclean.
      unfold conversion_failed, bind, print, emit, ret. run_step.
      exists p, d, (Some msg), cevs, [EvPrint ("Conversion error: " +:+ msg)].
      do 2 eexists.
      split; [exact Hne|]. split; [exact Hfp|]. split; [exact Hfd|].
      split; [reflexivity|]. split.
      { rewrite <- !app_assoc. apply events_since_app. }
      split; [right; exists written, msg; auto|]. run_step. exact Hcases.
Qed.

(** ** Validation *)

Lemma rewind (file : FileStorage) :
  seek 0 SEEK_SET (seek 0 SEEK_END file) = mkFile (filename file) (stream file) 0.
Proof. reflexivity. Qed.

Lemma measured_size (file : FileStorage) :
  tell (seek 0 SEEK_END file) = upload_size file.
Proof. unfold tell, seek, upload_size. run_step. lia. Qed.

(** The checks of a request that is not a preflight, in program order. *)
Lemma validation (env : Env) (req : Request) (w : World) :
  String.eqb (method req) "OPTIONS" = false ->
  match files req !! "file" with
  | None =>
      convert_pdf env req w = (Ret (with_status 400 (failure "No file uploaded")), w)
  | Some file =>
      (filename file = EmptyString
       /\ convert_pdf env req w =
            (Ret (with_status 400 (failure "No file selected")), w))
      \/ (filename file <> EmptyString /\ ~ has_pdf_extension (filename file)
          /\ convert_pdf env req w =
               (Ret (with_status 400 (failure "Only PDF files are allowed")), w))
      \/ (filename file <> EmptyString /\ has_pdf_extension (filename file)
          /\ upload_size file > MAX_FILE_SIZE
          /\ convert_pdf env req w =
               (Ret (with_status 400 (failure "File size exceeds 10MB limit")), w))
      \/ (filename file <> EmptyString /\ has_pdf_extension (filename file)
          /\ upload_size file <= MAX_FILE_SIZE
          /\ convert_pdf env req w =
               try_except
                 (stage_and_convert env (mkFile (filename file) (stream file) 0))
                 conversion_failed w)
  end.
Proof.
  intros Hm. unfold convert_pdf. rewrite Hm.
  unfold try_except at 1, convert_pdf_body.
  destruct (files req !! "file") as [file|]; [|reflexivity].
  destruct (String.eqb_spec (filename file) EmptyString) as [He|He].
  - left. split; [exact He | reflexivity].
  - right. unfold bind, lift.
    destruct (allowed_file_cases (filename file)) as [[Ha Hext]|[Ha Hext]];
      rewrite Ha; cbn [negb].
    + right. rewrite measured_size, rewind.
      destruct (Z.gtb_spec (upload_size file) MAX_FILE_SIZE) as [Hs|Hs].
      * left. repeat split; try assumption. lia.
      * right. repeat split; assumption.
    + left. repeat split; assumption.
Qed.

(** Every run of a request that is not a preflight: it is rejected and the
    world is untouched, or staging fails, or both temporary files are
    created and the conversion is attempted. *)
Lemma post_run (env : Env) (req : Request) (w : World) :
  String.eqb (method req) "OPTIONS" = false ->
  (exists msg,
     convert_pdf env req w = (Ret (with_status 400 (failure msg)), w))
  \/ (exists e evs w',
        convert_pdf env req w =
          (Ret (with_status 500 (failure ("Conversion failed: " +:+ e))), w')
        /\ events_since w w' = (evs ++ [EvPrint ("Conversion error: " +:+ e)])%list
        /\ (evs = [] \/ exists p, evs = [EvCreate p; EvSave p]))
  \/ (exists file p d r cevs tail resp w',
        files req !! "file" = Some file
        /\ p <> d /\ fs w !! p = None /\ fs w !! d = None
        /\ convert_pdf env req w = (Ret resp, w')
        /\ events_since w w' =
             ([EvCreate p; EvSave p; EvCreate d; EvConvert p d r] ++ cevs ++ tail)%list
        /\ ((exists docx,
               converter env (stream file) 0 None = Converted docx
               /\ r = None /\ tail = []
               /\ resp =
                    mkResponse 200 docx_mimetype
                      (Some (fst (splitext (secure_filename env (filename file)))
                             +:+ ".docx"))
                      [("Access-Control-Allow-Origin", "*")] (FileBody docx))
            \/ (exists written msg,
                  converter env (stream file) 0 None = ConversionError written msg
                  /\ r = Some msg
                  /\ tail = [EvPrint ("Conversion error: " +:+ msg)]
                  /\ resp = with_status 500 (failure ("Conversion failed: " +:+ msg))))
        /\ ((unlink_error env p = None /\ unlink_error env d = None
             /\ cevs = [EvUnlink p None; EvUnlink d None]
             /\ fs w' = fs w)
            \/ (exists e, unlink_error env p = Some e
                  /\ cevs = [EvUnlink p (Some e); EvPrint ("Cleanup error: " +:+ e)]
                  /\ is_Some (fs w' !! p) /\ is_Some (fs w' !! d))
            \/ (exists e, unlink_error env p = None /\ unlink_error env d = Some e
                  /\ cevs = [EvUnlink p None; EvUnlink d (Some e);
                             EvPrint ("Cleanup error: " +:+ e)]
                  /\ fs w' !! p = None /\ is_Some (fs w' !! d)))).
Proof.
  intros Hm. pose proof (validation env req w Hm) as Hv.
  destruct (files req !! "file") as [file|] eqn:Hf; [|left; eauto].
  destruct Hv as [[_ Hr] | [(_ & _ & Hr) | [(_ & _ & _ & Hr) | (_ & _ & _ & Hr)]]];
    [left; eauto | left; eauto | left; eauto |].
  right. rewrite Hr.
  destruct (staged_run env (mkFile (filename file) (stream file) 0) w eq_refl)
    as [Hfail | (p & d & r & cevs & tail & resp & w' & Hrest)].
  - left. exact Hfail.
  - right. exists file, p, d, r, cevs, tail, resp, w'.
    split; [reflexivity | exact Hrest].
Qed.

(** The view always answers: no exception leaves [convert_pdf]. *)
Lemma convert_pdf_returns (env : Env) (req : Request) (w : World) :
  exists resp w', convert_pdf env req w = (Ret resp, w').
Proof.
  destruct (String.eqb (method req) "OPTIONS") eqn:Hm.
  - unfold convert_pdf. rewrite Hm. unfold ret. eauto.
  - destruct (post_run env req w Hm)
      as [(msg & H) | [(e & evs & w' & H & _) | (f & p & d & r & c & t & resp & w' & _ & _ & _ & _ & H & _)]];
      eauto.
Qed.

(** The answer of the outer [try] is a function of the outcome of its body. *)
Lemma try_except_answer (body : Py Response) (w : World) :
  fst (try_except body conversion_failed w) =
    match fst (body w) with
    | Ret a => Ret a
    | Raise e => Ret (with_status 500 (failure ("Conversion failed: " +:+ e)))
    end.
Proof.
  unfold try_except. destruct (body w) as [[a|e] w1]; reflexivity.
Qed.

Lemma stage_answer_independent (env : Env) (u : string -> option string)
    (file : FileStorage) (w : World) :
  fst (stage_and_convert (with_unlink_error env u) file w) =
    fst (stage_and_convert env file w).
Proof.
  unfold stage_and_convert, bind, NamedTemporaryFile, save, ret.
  cbn [with_unlink_error secure_filename save_error]. run_step.
  destruct (mkstemp_inner (names w) ".pdf" (fs w)) as [[p rest]|]; run_step;
    [|reflexivity].
  destruct (save_error env) as [e|]; run_step; [reflexivity|].
  match goal with
  | |- context [mkstemp_inner rest ".docx" ?disk] =>
      destruct (mkstemp_inner rest ".docx" disk) as [[d rest']|]
  end; run_step; [|reflexivity].
  rewrite !try_finally_cleanup. reflexivity.
Qed.

(** The answer does not depend on how [os.unlink] behaves. *)
Lemma answer_independent_of_unlink (env : Env) (u : string -> option string)
    (req : Request) (w : World) :
  answer (with_unlink_error env u) req w = answer env req w.
Proof.
  unfold answer, convert_pdf.
  destruct (String.eqb (method req) "OPTIONS"); [reflexivity|].
  rewrite !try_except_answer. unfold convert_pdf_body.
  destruct (files req !! "file") as [file|]; [|reflexivity].
  destruct (String.eqb (filename file) EmptyString); [reflexivity|].
  unfold bind, lift.
  destruct (allowed_file (filename file)) as [[|]|e]; cbn [negb]; try reflexivity.
  destruct (tell (seek 0 SEEK_END file) >? MAX_FILE_SIZE); [reflexivity|].
  rewrite stage_answer_independent. reflexivity.
Qed.

Lemma post_validation (env : Env) (req : Request) (w : World) (file : FileStorage) :
  method req = "POST" -> files req !! "file" = Some file ->
  (filename file = EmptyString
   /\ convert_pdf env req w =
        (Ret (with_status 400 (failure "No file selected")), w))
  \/ (filename file <> EmptyString /\ ~ has_pdf_extension (filename file)
      /\ convert_pdf env req w =
           (Ret (with_status 400 (failure "Only PDF files are allowed")), w))
  \/ (filename file <> EmptyString /\ has_pdf_extension (filename file)
      /\ upload_size file > MAX_FILE_SIZE
      /\ convert_pdf env req w =
           (Ret (with_status 400 (failure "File size exceeds 10MB limit")), w))
  \/ (filename file <> EmptyString /\ has_pdf_extension (filename file)
      /\ upload_size file <= MAX_FILE_SIZE
      /\ convert_pdf env req w =
           try_except
             (stage_and_convert env (mkFile (filename file) (stream file) 0))
             conversion_failed w).
Proof.
  intros Hm Hf.
  pose proof (validation env req w (post_is_not_options req Hm)) as Hv.
  rewrite Hf in Hv. exact Hv.
Qed.

(** A validated upload is answered 200 or 500, never 400. *)
Lemma staged_status (env : Env) (file : FileStorage) (w : World) :
  position file = 0 ->
  exists resp w',
    try_except (stage_and_convert env file) conversion_failed w = (Ret resp, w')
    /\ (status resp = 200 \/ status resp = 500).
Proof.
  intros Hpos.
  destruct (staged_run env file w Hpos)
    as [(e & evs & w' & Hr & _)
       | (p & d & r & cevs & tail & resp & w' & _ & _ & _ & Hr & _ & Hconv & _)].
  - eexists _, w'. split; [exact Hr | right; reflexivity].
  - exists resp, w'. split; [exact Hr|].
    destruct Hconv as [(docx & _ & _ & _ & ->) | (wr & msg & _ & _ & _ & ->)];
      [left | right]; reflexivity.
Qed.

(** ** The claims *)

(** C5. For a non-empty file name, [allowed_file] answers [True] exactly when
    the name has a last dot followed by [pdf] in some letter case, and it
    answers [False] otherwise; a POST whose file name fails the check is
    answered 400 with the message "Only PDF files are allowed", the world
    being left as it was. *)
Theorem allowed_file_extension (name : string) :
  name <> EmptyString ->
  (allowed_file name = Ret true <-> has_pdf_extension name)
  /\ (allowed_file name = Ret false <-> ~ has_pdf_extension name)
  /\ (forall env req w file,
        method req = "POST" -> files req !! "file" = Some file ->
        filename file = name -> ~ has_pdf_extension name ->
        convert_pdf env req w =
          (Ret (with_status 400 (failure "Only PDF files are allowed")), w)).
Proof.
  intros Hname. split; [apply allowed_file_true_iff|]. split.
  - destruct (allowed_file_cases name) as [[Ha Hext]|[Ha Hext]]; rewrite Ha;
      split; intros H; try discriminate; try reflexivity; tauto.
  - intros env req w file Hm Hf <- Hext.
    destruct (post_validation env req w file Hm Hf)
      as [[He _] | [(_ & _ & Hr) | [(_ & Hp & _) | (_ & Hp & _)]]];
      [contradiction | exact Hr | contradiction | contradiction].
Qed.

Lemma allowed_file_extension_witness :
  "notes.txt" <> EmptyString
  /\ (allowed_file "notes.txt" = Ret false <-> ~ has_pdf_extension "notes.txt").
Proof.
  split; [discriminate|].
  apply (allowed_file_extension "notes.txt"). discriminate.
Defined.

(** C10. A POST whose file name is not empty and contains no dot is answered
    400 with "Only PDF files are allowed", and not with one of the two
    missing-file answers. *)
Theorem dotless_filename_rejected (env : Env) (req : Request) (w : World)
    (file : FileStorage) :
  method req = "POST" ->
  files req !! "file" = Some file ->
  filename file <> EmptyString ->
  ~ In "."%char (list_ascii_of_string (filename file)) ->
  convert_pdf env req w =
    (Ret (with_status 400 (failure "Only PDF files are allowed")), w)
  /\ answer env req w <> Ret (with_status 400 (failure "No file uploaded"))
  /\ answer env req w <> Ret (with_status 400 (failure "No file selected")).
Proof.
  intros Hm Hf Hname Hdot.
  assert (Hext : ~ has_pdf_extension (filename file)).
  { intros H. apply allowed_file_true_iff in H.
    apply contains_false_In in Hdot.
    rewrite (allowed_file_dotless _ Hdot) in H. discriminate. }
  assert (Hr : convert_pdf env req w =
                 (Ret (with_status 400 (failure "Only PDF files are allowed")), w)).
  { destruct (post_validation env req w file Hm Hf)
      as [[He _] | [(_ & _ & Hr) | [(_ & Hp & _) | (_ & Hp & _)]]];
      [contradiction | exact Hr | contradiction | contradiction]. }
  split; [exact Hr|]. unfold answer. rewrite Hr. split; discriminate.
Qed.

Lemma dotless_filename_rejected_witness :
  convert_pdf Scenario.env_ok (Scenario.upload "/api/convert" "Report") Scenario.w0 =
    (Ret (with_status 400 (failure "Only PDF files are allowed")), Scenario.w0).
Proof.
  refine (proj1 (dotless_filename_rejected Scenario.env_ok
                   (Scenario.upload "/api/convert" "Report") Scenario.w0
                   (mkFile "Report" Scenario.pdf_bytes 0) _ _ _ _)).
  - reflexivity.
  - reflexivity.
  - discriminate.
  - simpl. intros H. repeat (destruct H as [H|H]; [discriminate H|]). exact H.
Defined.

(** C4. For a POST whose upload passed the first three checks, the answer is
    the 400 "File size exceeds 10MB limit" exactly when the length of the
    stream, read with [seek] to the end and [tell], is greater than
    10 * 1024 * 1024; any other 400 is excluded, so an upload of exactly that
    many bytes passes. The stream is rewound before it is used again. *)
Theorem size_check_boundary (env : Env) (req : Request) (w : World)
    (file : FileStorage) :
  method req = "POST" ->
  files req !! "file" = Some file ->
  filename file <> EmptyString ->
  has_pdf_extension (filename file) ->
  tell (seek 0 SEEK_END file) = Z.of_nat (length (stream file))
  /\ position (seek 0 SEEK_SET (seek 0 SEEK_END file)) = 0
  /\ (answer env req w = Ret (with_status 400 (failure "File size exceeds 10MB limit"))
      <-> Z.of_nat (length (stream file)) > 10 * 1024 * 1024)
  /\ (exists resp,
        answer env req w = Ret resp
        /\ (status resp = 400 <-> Z.of_nat (length (stream file)) > 10 * 1024 * 1024))
  /\ (Z.of_nat (length (stream file)) = 10 * 1024 * 1024 ->
      exists resp, answer env req w = Ret resp /\ status resp <> 400).
Proof.
  intros Hm Hf Hname Hext.
  split; [apply measured_size|]. split; [reflexivity|].
  assert (Hcases :
    (Z.of_nat (length (stream file)) > 10 * 1024 * 1024
     /\ answer env req w =
          Ret (with_status 400 (failure "File size exceeds 10MB limit")))
    \/ (Z.of_nat (length (stream file)) <= 10 * 1024 * 1024
        /\ exists resp, answer env req w = Ret resp
             /\ (status resp = 200 \/ status resp = 500))).
  { unfold answer.
    destruct (post_validation env req w file Hm Hf)
      as [[He _] | [(_ & Hn & _) | [(_ & _ & Hs & Hr) | (_ & _ & Hs & Hr)]]];
      [contradiction | contradiction | |].
    - left. rewrite Hr. split; [exact Hs | reflexivity].
    - right. split; [exact Hs|]. rewrite Hr.
      destruct (staged_status env (mkFile (filename file) (stream file) 0) w eq_refl)
        as (resp & w' & -> & Hst).
      exists resp. split; [reflexivity | exact Hst]. }
  destruct Hcases as [[Hs Ha] | (Hs & resp & Ha & Hst)]; rewrite Ha.
  - split; [tauto|]. split.
    + eexists. split; [reflexivity|]. cbn [status with_status]. tauto.
    + intros E. lia.
  - split; [|split].
    + split; [|lia]. intros E. injection E as ->.
      cbn [status with_status] in Hst. lia.
    + exists resp. split; [reflexivity|]. lia.
    + intros _. exists resp. split; [reflexivity|]. lia.
Qed.

Lemma size_check_boundary_witness :
  exists resp,
    answer Scenario.env_ok (Scenario.upload "/api/convert" "Report.PDF") Scenario.w0
      = Ret resp
    /\ (status resp = 400
        <-> Z.of_nat (length Scenario.pdf_bytes) > 10 * 1024 * 1024).
Proof.
  refine (proj1 (proj2 (proj2 (proj2
    (size_check_boundary Scenario.env_ok
       (Scenario.upload "/api/convert" "Report.PDF") Scenario.w0
       (mkFile "Report.PDF" Scenario.pdf_bytes 0) _ _ _ _))))).
  - reflexivity.
  - reflexivity.
  - discriminate.
  - exists "Report", "PDF". split; [reflexivity|]. split; [|reflexivity].
    simpl. intros H. repeat (destruct H as [H|H]; [discriminate H|]). exact H.
Defined.

(** C2. A POST is checked in the order: file field present, file name not
    empty, extension allowed, size within the limit. The first check that
    fails decides the answer, whatever the later ones would say; the answer
    is then a 400 with a JSON error, and the world is the one the request
    found: no temporary file was created and the converter was not invoked.
    When all four checks pass the answer is not a 400. *)
Theorem validation_order (env : Env) (req : Request) (w : World) :
  method req = "POST" ->
  (files req !! "file" = None ->
   convert_pdf env req w = (Ret (with_status 400 (failure "No file uploaded")), w))
  /\ (forall file, files req !! "file" = Some file ->
        (filename file = EmptyString ->
         convert_pdf env req w =
           (Ret (with_status 400 (failure "No file selected")), w))
        /\ (filename file <> EmptyString -> ~ has_pdf_extension (filename file) ->
            convert_pdf env req w =
              (Ret (with_status 400 (failure "Only PDF files are allowed")), w))
        /\ (filename file <> EmptyString -> has_pdf_extension (filename file) ->
            Z.of_nat (length (stream file)) > 10 * 1024 * 1024 ->
            convert_pdf env req w =
              (Ret (with_status 400 (failure "File size exceeds 10MB limit")), w))
        /\ (filename file <> EmptyString -> has_pdf_extension (filename file) ->
            Z.of_nat (length (stream file)) <= 10 * 1024 * 1024 ->
            exists resp, answer env req w = Ret resp /\ status resp <> 400))
  /\ (forall resp, answer env req w = Ret resp -> status resp = 400 ->
        snd (convert_pdf env req w) = w
        /\ request_events env req w = []
        /\ disk_after env req w = fs w
        /\ exists msg,
             body resp = JsonBody [("success", JBool false); ("error", JStr msg)]).
Proof.
  intros Hm. split; [|split].
  - intros Hf. pose proof (validation env req w (post_is_not_options req Hm)) as Hv.
    rewrite Hf in Hv. exact Hv.
  - intros file Hf.
    destruct (post_validation env req w file Hm Hf)
      as [[He Hr] | [(Hn & Hx & Hr) | [(Hn & Hx & Hs & Hr) | (Hn & Hx & Hs & Hr)]]].
    + split; [intros _; exact Hr|]. repeat split; intros; contradiction.
    + split; [intros; contradiction|]. split; [intros; exact Hr|].
      split; intros; contradiction.
    + split; [intros; contradiction|]. split; [intros; contradiction|].
      split; [intros; exact Hr|]. intros _ _ Hle.
      unfold upload_size, MAX_FILE_SIZE in Hs. lia.
    + split; [intros; contradiction|]. split; [intros; contradiction|].
      split.
      * intros _ _ Hgt. unfold upload_size, MAX_FILE_SIZE in Hs. lia.
      * intros _ _ _. unfold answer. rewrite Hr.
        destruct (staged_status env (mkFile (filename file) (stream file) 0) w eq_refl)
          as (resp & w' & -> & Hst).
        exists resp. split; [reflexivity | lia].
  - intros resp Ha Hst. unfold answer, request_events, disk_after in *.
    destruct (post_run env req w (post_is_not_options req Hm))
      as [(msg & Hr)
         | [(e & evs & w' & Hr & _)
           | (f & p & d & r & c & t & resp' & w' & _ & _ & _ & _ & Hr & _ & Hconv & _)]];
      rewrite Hr in *; cbn [fst snd] in *.
    + injection Ha as <-. split; [reflexivity|].
      split; [apply events_since_refl|]. split; [reflexivity|].
      exists msg. reflexivity.
    + injection Ha as <-. discriminate Hst.
    + injection Ha as <-.
      destruct Hconv as [(docx & _ & _ & _ & ->) | (wr & msg & _ & _ & _ & ->)];
        discriminate Hst.
Qed.

Lemma validation_order_witness :
  convert_pdf Scenario.env_ok Scenario.no_file Scenario.w0 =
    (Ret (with_status 400 (failure "No file uploaded")), Scenario.w0)
  /\ convert_pdf Scenario.env_ok (Scenario.upload "/api/convert" EmptyString) Scenario.w0 =
       (Ret (with_status 400 (failure "No file selected")), Scenario.w0).
Proof.
  split.
  - apply (proj1 (validation_order Scenario.env_ok Scenario.no_file Scenario.w0
                    eq_refl)).
    reflexivity.
  - refine (proj1 (proj1 (proj2 (validation_order Scenario.env_ok
              (Scenario.upload "/api/convert" EmptyString) Scenario.w0 eq_refl))
              (mkFile EmptyString Scenario.pdf_bytes 0) _) _); reflexivity.
Defined.

(** C8, as the code has it. A preflight is answered at once with the JSON
    object [{"status": "ok"}] and the three cross-origin headers; nothing is
    validated (the form is not looked at) and the world is left as it was:
    no event, no change on disk. *)
Theorem preflight_answer (env : Env) (req : Request) (w : World) :
  method req = "OPTIONS" ->
  convert_pdf env req w =
    (Ret (mkResponse 200 "application/json" None
            [("Access-Control-Allow-Origin", "*");
             ("Access-Control-Allow-Headers", "Content-Type");
             ("Access-Control-Allow-Methods", "POST")]
            (JsonBody [("status", JStr "ok")])),
     w)
  /\ request_events env req w = []
  /\ disk_after env req w = fs w.
Proof.
  intros Hm.
  assert (Hr : convert_pdf env req w =
    (Ret (mkResponse 200 "application/json" None
            [("Access-Control-Allow-Origin", "*");
             ("Access-Control-Allow-Headers", "Content-Type");
             ("Access-Control-Allow-Methods", "POST")]
            (JsonBody [("status", JStr "ok")])), w)).
  { unfold convert_pdf. rewrite Hm. reflexivity. }
  split; [exact Hr|]. unfold request_events, disk_after. rewrite Hr.
  split; [apply events_since_refl | reflexivity].
Qed.

Lemma preflight_answer_witness :
  request_events Scenario.env_ok Scenario.preflight Scenario.w0 = []
  /\ disk_after Scenario.env_ok Scenario.preflight Scenario.w0 = fs Scenario.w0.
Proof.
  apply (proj2 (preflight_answer Scenario.env_ok Scenario.preflight Scenario.w0
                  eq_refl)).
Defined.

(** C8, as stated, fails: the acknowledgment of a preflight is not empty. *)
Lemma preflight_body_not_empty :
  answer Scenario.env_ok Scenario.preflight Scenario.w0 =
    Ret (mkResponse 200 "application/json" None
           [("Access-Control-Allow-Origin", "*");
            ("Access-Control-Allow-Headers", "Content-Type");
            ("Access-Control-Allow-Methods", "POST")]
           (JsonBody [("status", JStr "ok")]))
  /\ ~ (exists resp,
          answer Scenario.env_ok Scenario.preflight Scenario.w0 = Ret resp
          /\ empty_body (body resp) = true).
Proof.
  split; [reflexivity|].
  intros (resp & Ha & He).
  change (answer Scenario.env_ok Scenario.preflight Scenario.w0)
    with (Ret (mkResponse 200 "application/json" None
                 [("Access-Control-Allow-Origin", "*");
                  ("Access-Control-Allow-Headers", "Content-Type");
                  ("Access-Control-Allow-Methods", "POST")]
                 (JsonBody [("status", JStr "ok")]))) in Ha.
  injection Ha as <-. discriminate He.
Qed.

(** C7, as the code has it. The view is registered under the URL
    [/api/convert]: a POST to that URL is handled by [convert_pdf], which
    looks for the upload in the form field [file] (the answer is the 400
    "No file uploaded" exactly when that field is absent); a POST to any
    other URL is answered 404 and changes nothing. *)
Theorem endpoint_route (env : Env) (req : Request) (w : World) :
  method req = "POST" ->
  (path req = "/api/convert" ->
   handler env req w = convert_pdf env req w
   /\ (files req !! "file" = None <->
       fst (handler env req w) = Ret (with_status 400 (failure "No file uploaded"))))
  /\ (path req <> "/api/convert" -> handler env req w = (Ret not_found, w)).
Proof.
  intros Hm. unfold handler, full_dispatch_request, route_rule, route_methods.
  split.
  - intros Hp. rewrite Hp, Hm.
    assert (Hh : (if String.eqb "/api/convert" "/api/convert"
                  then if bool_decide ("POST" ∈ ["POST"; "OPTIONS"])
                       then convert_pdf env req
                       else ret method_not_allowed
                  else ret not_found) = convert_pdf env req) by reflexivity.
    rewrite Hh. split; [reflexivity|].
    destruct (files req !! "file") as [file|] eqn:Hf.
    + split; [discriminate|]. intros Ha. exfalso.
      destruct (post_validation env req w file Hm Hf)
        as [[_ Hr] | [(_ & _ & Hr) | [(_ & _ & _ & Hr) | (_ & _ & _ & Hr)]]];
        rewrite Hr in Ha; try discriminate Ha.
      destruct (staged_status env (mkFile (filename file) (stream file) 0) w eq_refl)
        as (resp & w' & Hs & Hst).
      rewrite Hs in Ha. cbn [fst] in Ha. injection Ha as ->.
      cbn [status with_status] in Hst. lia.
    + split; [|reflexivity]. intros _.
      pose proof (validation env req w (post_is_not_options req Hm)) as Hv.
      rewrite Hf in Hv. rewrite Hv. reflexivity.
  - intros Hp. apply String.eqb_neq in Hp. rewrite Hp. reflexivity.
Qed.

Lemma endpoint_route_witness :
  handler Scenario.env_ok (Scenario.upload "/api/convert" "Report.PDF") Scenario.w0 =
    convert_pdf Scenario.env_ok (Scenario.upload "/api/convert" "Report.PDF") Scenario.w0.
Proof.
  apply (proj1 (endpoint_route Scenario.env_ok
                  (Scenario.upload "/api/convert" "Report.PDF") Scenario.w0 eq_refl)).
  reflexivity.
Defined.

(** C7, as stated, fails: a POST to [/convert] with one file in the field
    [file] does not reach the view; it is answered 404. *)
Lemma convert_url_not_routed :
  handler Scenario.env_ok (Scenario.upload "/convert" "Report.PDF") Scenario.w0 =
    (Ret not_found, Scenario.w0)
  /\ handler Scenario.env_ok (Scenario.upload "/convert" "Report.PDF") Scenario.w0 <>
     convert_pdf Scenario.env_ok (Scenario.upload "/convert" "Report.PDF") Scenario.w0.
Proof.
  split; [reflexivity|].
  intros H. vm_compute in H. discriminate H.
Qed.

(** ** Events of a run *)

Lemma preflight_events (env : Env) (req : Request) (w : World) :
  String.eqb (method req) "OPTIONS" = true -> request_events env req w = [].
Proof.
  intros Hm. unfold request_events, convert_pdf. rewrite Hm.
  apply events_since_refl.
Qed.

(** C1, as the code has it. When a POST created two temporary files and no
    deletion raised during the cleanup, neither file is on disk when the
    handler returns, and the disk is the one the request found: nothing the
    request created remains. This covers a conversion that succeeds and one
    that fails. *)
Theorem temporary_files_removed (env : Env) (req : Request) (w : World)
    (p d : string) :
  method req = "POST" ->
  In (EvCreate p) (request_events env req w) ->
  In (EvCreate d) (request_events env req w) ->
  p <> d ->
  (forall q e, ~ In (EvUnlink q (Some e)) (request_events env req w)) ->
  disk_after env req w !! p = None
  /\ disk_after env req w !! d = None
  /\ disk_after env req w = fs w.
Proof.
  intros Hm Hp Hd Hne Hno. unfold request_events, disk_after in *.
  destruct (post_run env req w (post_is_not_options req Hm))
    as [(msg & Hr)
       | [(e & evs & w' & Hr & Hev & Hshape)
         | (f & p0 & d0 & r & c & t & resp & w' & _ & _ & Hfp & Hfd & Hr & Hev
              & Hconv & Hclean)]];
    rewrite Hr in *; cbn [fst snd] in *.
  - rewrite events_since_refl in Hp. destruct Hp.
  - rewrite Hev in Hp, Hd. exfalso.
    destruct Hshape as [-> | [p1 ->]]; split_events Hp; split_events Hd.
    congruence.
  - rewrite Hev in Hp, Hd.
    assert (Htail : forall x, ~ In (EvCreate x) t).
    { intros x Hx.
      destruct Hconv as [(docx & _ & _ & -> & _) | (wr & msg & _ & _ & -> & _)];
        split_events Hx. }
    destruct Hclean as [(_ & _ & -> & Hdisk)
                       | [(e & _ & -> & _) | (e & _ & _ & -> & _)]].
    + assert (Hin : forall x,
                In (EvCreate x)
                  ([EvCreate p0; EvSave p0; EvCreate d0; EvConvert p0 d0 r]
                   ++ [EvUnlink p0 None; EvUnlink d0 None] ++ t) ->
                x = p0 \/ x = d0).
      { intros x Hx. cbn [In app] in Hx.
        repeat match type of Hx with
               | _ \/ _ => destruct Hx as [Hx|Hx]
               end;
          try discriminate Hx;
          try (injection Hx as Hx; auto; fail).
        exfalso. exact (Htail x Hx). }
      rewrite Hdisk.
      destruct (Hin p Hp) as [-> | ->], (Hin d Hd) as [-> | ->]; auto.
    + exfalso. apply (Hno p0 e). rewrite Hev. cbn [In app]. auto 10.
    + exfalso. apply (Hno d0 e). rewrite Hev. cbn [In app]. auto 10.
Qed.

Lemma temporary_files_removed_witness :
  disk_after Scenario.env_bad_pdf (Scenario.upload "/api/convert" "Report.PDF")
    Scenario.w0 !! "/tmp/tmpa1.pdf" = None
  /\ disk_after Scenario.env_bad_pdf (Scenario.upload "/api/convert" "Report.PDF")
       Scenario.w0 !! "/tmp/tmpb2.docx" = None
  /\ disk_after Scenario.env_bad_pdf (Scenario.upload "/api/convert" "Report.PDF")
       Scenario.w0 = fs Scenario.w0.
Proof.
  apply (temporary_files_removed Scenario.env_bad_pdf
           (Scenario.upload "/api/convert" "Report.PDF") Scenario.w0
           "/tmp/tmpa1.pdf" "/tmp/tmpb2.docx").
  - reflexivity.
  - vm_compute. auto.
  - vm_compute. auto.
  - discriminate.
  - intros q e H. vm_compute in H.
    repeat (destruct H as [H|H]; [discriminate H|]). exact H.
Defined.

(** C1, as stated, fails: both temporary files were created, the first
    deletion raised, and both files are still on disk after the handler
    returned its answer. *)
Lemma busy_disk_keeps_temporaries :
  method (Scenario.upload "/api/convert" "Report.PDF") = "POST"
  /\ In (EvCreate "/tmp/tmpa1.pdf")
       (request_events Scenario.env_busy
          (Scenario.upload "/api/convert" "Report.PDF") Scenario.w0)
  /\ In (EvCreate "/tmp/tmpb2.docx")
       (request_events Scenario.env_busy
          (Scenario.upload "/api/convert" "Report.PDF") Scenario.w0)
  /\ disk_after Scenario.env_busy (Scenario.upload "/api/convert" "Report.PDF")
       Scenario.w0 !! "/tmp/tmpa1.pdf" = Some Scenario.pdf_bytes
  /\ disk_after Scenario.env_busy (Scenario.upload "/api/convert" "Report.PDF")
       Scenario.w0 !! "/tmp/tmpb2.docx" = Some Scenario.docx_bytes.
Proof.
  split; [reflexivity|]. split; [vm_compute; auto|]. split; [vm_compute; auto|].
  split; vm_compute; reflexivity.
Qed.

(** C3. When the converter raised [msg] during a request, the answer is the
    500 whose JSON body is [{"success": false, "error": "Conversion failed: "
    + msg}], so it carries the text of the error and no file content, and
    the converter was invoked exactly once for that request. *)
Theorem converter_error_reported (env : Env) (req : Request) (w : World)
    (src dst msg : string) :
  In (EvConvert src dst (Some msg)) (request_events env req w) ->
  answer env req w =
    Ret (mkResponse 500 "application/json" None []
           (JsonBody [("success", JBool false);
                      ("error", JStr ("Conversion failed: " +:+ msg))]))
  /\ (forall resp, answer env req w = Ret resp ->
        forall data, body resp <> FileBody data)
  /\ length (List.filter is_conversion (request_events env req w)) = 1%nat.
Proof.
  intros Hin.
  assert (Hmain :
    answer env req w =
      Ret (mkResponse 500 "application/json" None []
             (JsonBody [("success", JBool false);
                        ("error", JStr ("Conversion failed: " +:+ msg))]))
    /\ length (List.filter is_conversion (request_events env req w)) = 1%nat).
  { destruct (String.eqb (method req) "OPTIONS") eqn:Hm.
    { rewrite (preflight_events env req w Hm) in Hin. destruct Hin. }
    unfold request_events, answer in *.
    destruct (post_run env req w Hm)
      as [(m & Hr)
         | [(e & evs & w' & Hr & Hev & Hshape)
           | (f & p0 & d0 & r & c & t & resp & w' & _ & _ & _ & _ & Hr & Hev
                & Hconv & Hclean)]];
      rewrite Hr in *; cbn [fst snd] in *.
    - rewrite events_since_refl in Hin. destruct Hin.
    - rewrite Hev in Hin. exfalso.
      destruct Hshape as [-> | [p1 ->]]; split_events Hin.
    - rewrite Hev in *.
      destruct Hclean as [(_ & _ & -> & _)
                         | [(e & _ & -> & _) | (e & _ & _ & -> & _)]];
        (destruct Hconv as [(docx & _ & -> & -> & ->)
                           | (wr & m & _ & -> & -> & ->)];
         split_events Hin; subst; split; reflexivity). }
  destruct Hmain as [Ha Hn]. split; [exact Ha|]. split; [|exact Hn].
  intros resp Hresp data. rewrite Ha in Hresp. injection Hresp as <-.
  discriminate.
Qed.

Lemma converter_error_reported_witness :
  answer Scenario.env_bad_pdf (Scenario.upload "/api/convert" "Report.PDF") Scenario.w0 =
    Ret (mkResponse 500 "application/json" None []
           (JsonBody [("success", JBool false);
                      ("error", JStr ("Conversion failed: " +:+ "bad xref"))])).
Proof.
  refine (proj1 (converter_error_reported Scenario.env_bad_pdf
                   (Scenario.upload "/api/convert" "Report.PDF") Scenario.w0
                   "/tmp/tmpa1.pdf" "/tmp/tmpb2.docx" "bad xref" _)).
  vm_compute. auto 10.
Defined.

(** C6. When the converter returned normally during a request, the answer is
    a 200 whose body is the converted document, sent as an attachment named
    after the base name of the sanitised file name with [.docx] appended,
    with the Word content type and the header
    [Access-Control-Allow-Origin: *]. For [Report.PDF], which the sanitiser
    leaves as it is, the attachment is named [Report.docx]. *)
Theorem success_response (env : Env) (req : Request) (w : World) (src dst : string) :
  In (EvConvert src dst None) (request_events env req w) ->
  exists file docx,
    files req !! "file" = Some file
    /\ converter env (stream file) 0 None = Converted docx
    /\ answer env req w =
         Ret (mkResponse 200
                "application/vnd.openxmlformats-officedocument.wordprocessingml.document"
                (Some (fst (splitext (secure_filename env (filename file))) +:+ ".docx"))
                [("Access-Control-Allow-Origin", "*")]
                (FileBody docx))
    /\ (secure_filename env (filename file) = "Report.PDF" ->
        exists resp, answer env req w = Ret resp
                     /\ disposition resp = Some "Report.docx").
Proof.
  intros Hin.
  destruct (String.eqb (method req) "OPTIONS") eqn:Hm.
  { rewrite (preflight_events env req w Hm) in Hin. destruct Hin. }
  unfold request_events, answer in *.
  destruct (post_run env req w Hm)
    as [(m & Hr)
       | [(e & evs & w' & Hr & Hev & Hshape)
         | (f & p0 & d0 & r & c & t & resp & w' & Hf & _ & _ & _ & Hr & Hev
              & Hconv & Hclean)]];
    rewrite Hr in *; cbn [fst snd] in *.
  - rewrite events_since_refl in Hin. destruct Hin.
  - rewrite Hev in Hin. exfalso.
    destruct Hshape as [-> | [p1 ->]]; split_events Hin.
  - rewrite Hev in Hin.
    destruct Hconv as [(docx & Hc & -> & -> & ->) | (wr & m & _ & -> & -> & ->)].
    + exists f, docx. split; [exact Hf|]. split; [exact Hc|].
      split; [reflexivity|]. intros Hs. eexists. split; [reflexivity|].
      cbn [disposition]. rewrite Hs. reflexivity.
    + exfalso.
      destruct Hclean as [(_ & _ & -> & _)
                         | [(e & _ & -> & _) | (e & _ & _ & -> & _)]];
        split_events Hin.
Qed.

Lemma success_response_witness :
  exists resp,
    answer Scenario.env_ok (Scenario.upload "/api/convert" "Report.PDF") Scenario.w0
      = Ret resp
    /\ status resp = 200
    /\ disposition resp = Some "Report.docx"
    /\ content_type resp =
         "application/vnd.openxmlformats-officedocument.wordprocessingml.document"
    /\ headers resp = [("Access-Control-Allow-Origin", "*")]
    /\ body resp = FileBody Scenario.docx_bytes.
Proof.
  destruct (success_response Scenario.env_ok
              (Scenario.upload "/api/convert" "Report.PDF") Scenario.w0
              "/tmp/tmpa1.pdf" "/tmp/tmpb2.docx")
    as (file & docx & Hf & Hc & Ha & _).
  - vm_compute. auto 10.
  - assert (Hfile : file = mkFile "Report.PDF" Scenario.pdf_bytes 0).
    { vm_compute in Hf. injection Hf as <-. reflexivity. }
    subst file. cbn in Hc. injection Hc as <-.
    eexists. split; [exact Ha|]. repeat split.
Defined.

(** C9. When a deletion raised [e] during the cleanup of a request, the
    error is printed as "Cleanup error: " + e and goes no further: the
    handler still returns an answer, and that answer is the one the same
    request gets when every deletion succeeds. *)
Theorem cleanup_error_is_silent (env : Env) (req : Request) (w : World)
    (q e : string) :
  In (EvUnlink q (Some e)) (request_events env req w) ->
  In (EvPrint ("Cleanup error: " +:+ e)) (request_events env req w)
  /\ (exists resp, answer env req w = Ret resp)
  /\ answer env req w = answer (with_unlink_error env (fun _ => None)) req w.
Proof.
  intros Hin. split; [|split].
  - destruct (String.eqb (method req) "OPTIONS") eqn:Hm.
    { rewrite (preflight_events env req w Hm) in Hin. destruct Hin. }
    unfold request_events in *.
    destruct (post_run env req w Hm)
      as [(m & Hr)
         | [(e0 & evs & w' & Hr & Hev & Hshape)
           | (f & p0 & d0 & r & c & t & resp & w' & _ & _ & _ & _ & Hr & Hev
                & Hconv & Hclean)]];
      rewrite Hr in *; cbn [fst snd] in *.
    + rewrite events_since_refl in Hin. destruct Hin.
    + rewrite Hev in Hin. exfalso.
      destruct Hshape as [-> | [p1 ->]]; split_events Hin.
    + rewrite Hev in *.
      destruct Hclean as [(_ & _ & -> & _)
                         | [(e1 & _ & -> & _) | (e1 & _ & _ & -> & _)]];
        (destruct Hconv as [(docx & _ & -> & -> & _)
                           | (wr & m & _ & -> & -> & _)];
         split_events Hin; subst; cbn [In app]; auto 10).
  - destruct (convert_pdf_returns env req w) as (resp & w' & Hr).
    exists resp. unfold answer. rewrite Hr. reflexivity.
  - symmetry. apply answer_independent_of_unlink.
Qed.

Lemma cleanup_error_is_silent_witness :
  In (EvPrint ("Cleanup error: " +:+ "[Errno 16] Device or resource busy"))
    (request_events Scenario.env_busy (Scenario.upload "/api/convert" "Report.PDF")
       Scenario.w0)
  /\ answer Scenario.env_busy (Scenario.upload "/api/convert" "Report.PDF") Scenario.w0 =
     answer (with_unlink_error Scenario.env_busy (fun _ => None))
       (Scenario.upload "/api/convert" "Report.PDF") Scenario.w0.
Proof.
  destruct (cleanup_error_is_silent Scenario.env_busy
              (Scenario.upload "/api/convert" "Report.PDF") Scenario.w0
              "/tmp/tmpa1.pdf" "[Errno 16] Device or resource busy")
    as (Hlog & _ & Hsame).
  - vm_compute. auto 10.
  - split; [exact Hlog | exact Hsame].
Defined.

(** * Further properties of the request life cycle *)

(** ** The disk on every path *)

(** Staging with the disk it leaves: no name is free and nothing was
    created; or the first file was created and then the save or the second
    creation raised, and the first file stays; or both files exist. *)
Lemma staging_paths (env : Env) (file : FileStorage) (w : World) :
  position file = 0 ->
  (exists e, stage_and_convert env file w = (Raise e, mkWorld (fs w) [] (trace w)))
  \/ (exists e p c rest,
        fs w !! p = None
        /\ stage_and_convert env file w =
             (Raise e,
              mkWorld (<[p := c]> (fs w)) rest (trace w ++ [EvCreate p; EvSave p]))
        /\ ((save_error env = Some e /\ c = [])
            \/ (save_error env = None /\ c = stream file)))
  \/ (exists p d rest,
        p <> d /\ fs w !! p = None /\ fs w !! d = None
        /\ stage_and_convert env file w =
             try_finally
               (convert_and_send env
                  (fst (splitext (secure_filename env (filename file)))) p d)
               (cleanup env p d)
               (mkWorld (<[d := []]> (<[p := stream file]> (fs w))) rest
                  (trace w ++ [EvCreate p; EvSave p; EvCreate d]))).
Proof.
  intros Hpos.
  unfold stage_and_convert, bind, NamedTemporaryFile, save, ret. run_step.
  destruct (mkstemp_inner (names w) ".pdf" (fs w)) as [[p rest]|] eqn:Hp;
    run_step; [|left; eauto].
  right. pose proof (mkstemp_inner_fresh _ _ _ _ _ Hp) as Hfp.
  destruct (save_error env) as [e|] eqn:Hs; run_step.
  - left. exists e, p, [], rest. rewrite <- app_assoc. auto.
  - rewrite Hpos. change (List.skipn (Z.to_nat 0) (stream file)) with (stream file).
    rewrite insert_insert_eq.
    destruct (mkstemp_inner rest ".docx" (<[p := stream file]> (fs w)))
      as [[d rest']|] eqn:Hd; run_step.
    + right. exists p, d, rest'.
      apply mkstemp_inner_fresh in Hd.
      assert (Hne : p <> d).
      { intros ->. rewrite lookup_insert_eq in Hd. discriminate. }
      rewrite lookup_insert_ne in Hd by exact Hne.
      repeat split; try assumption.
      rewrite <- !app_assoc. reflexivity.
    + left. eexists _, p, (stream file), []. rewrite <- app_assoc. auto.
Qed.

(** The cleanup after a conversion that wrote [x], with the disk it leaves. *)
Lemma staged_cleanup_disk (env : Env) (p d : string) (x data : list Byte.byte)
    (disk0 : gmap string (list Byte.byte)) (nm : list string) (tr : list Event) :
  p <> d -> disk0 !! p = None -> disk0 !! d = None ->
  exists disk cevs,
    cleanup env p d
      (mkWorld (<[d := x]> (<[d := []]> (<[p := data]> disk0))) nm tr)
    = (Ret tt, mkWorld disk nm (tr ++ cevs))
    /\ ((unlink_error env p = None /\ unlink_error env d = None
         /\ cevs = [EvUnlink p None; EvUnlink d None]
         /\ disk = disk0)
        \/ (exists e, unlink_error env p = Some e
              /\ cevs = [EvUnlink p (Some e); EvPrint ("Cleanup error: " +:+ e)]
              /\ disk = <[d := x]> (<[p := data]> disk0))
        \/ (exists e, unlink_error env p = None /\ unlink_error env d = Some e
              /\ cevs = [EvUnlink p None; EvUnlink d (Some e);
                         EvPrint ("Cleanup error: " +:+ e)]
              /\ disk = <[d := x]> disk0)).
Proof.
  intros Hne Hp Hd.
  set (w3 := mkWorld (<[d := x]> (<[d := []]> (<[p := data]> disk0))) nm tr).
  assert (H3p : fs w3 !! p = Some data).
  { subst w3. run_step.
    rewrite !lookup_insert_ne by congruence. apply lookup_insert_eq. }
  assert (H3d : fs w3 !! d = Some x).
  { subst w3. run_step. apply lookup_insert_eq. }
  destruct (cleanup_shape env p d w3) as (disk & cevs & Hrun & Hcases);
    [eauto | eauto | exact Hne |].
  exists disk, cevs. split; [exact Hrun|].
  destruct Hcases as [(Ep & Ed & -> & ->) | [(e & Ep & -> & ->) | (e & Ep & Ed & -> & ->)]];
    subst w3; run_step.
  - left. repeat split; try assumption. apply staged_disk_restored; assumption.
  - right; left. exists e. repeat split; try assumption.
    apply insert_insert_eq.
  - right; right. exists e. repeat split; try assumption.
    rewrite insert_insert_eq, (delete_insert_ne _ p d x Hne).
    rewrite (delete_insert_eq disk0 p data), (delete_id disk0 p Hp). reflexivity.
Qed.

(** Every run of a request that is not a preflight, with its answer, its
    events and the disk it leaves. *)
Lemma post_paths (env : Env) (req : Request) (w : World) :
  String.eqb (method req) "OPTIONS" = false ->
  (exists msg,
     convert_pdf env req w = (Ret (with_status 400 (failure msg)), w))
  \/ (exists e w',
        convert_pdf env req w =
          (Ret (with_status 500 (failure ("Conversion failed: " +:+ e))), w')
        /\ fs w' = fs w
        /\ events_since w w' = [EvPrint ("Conversion error: " +:+ e)])
  \/ (exists file e p c w',
        files req !! "file" = Some file
        /\ fs w !! p = None
        /\ convert_pdf env req w =
             (Ret (with_status 500 (failure ("Conversion failed: " +:+ e))), w')
        /\ fs w' = <[p := c]> (fs w)
        /\ events_since w w' =
             [EvCreate p; EvSave p; EvPrint ("Conversion error: " +:+ e)]
        /\ ((save_error env = Some e /\ c = [])
            \/ (save_error env = None /\ c = stream file)))
  \/ (exists file p d r x cevs tail resp w',
        files req !! "file" = Some file
        /\ p <> d /\ fs w !! p = None /\ fs w !! d = None
        /\ convert_pdf env req w = (Ret resp, w')
        /\ events_since w w' =
             ([EvCreate p; EvSave p; EvCreate d; EvConvert p d r] ++ cevs ++ tail)%list
        /\ ((converter env (stream file) 0 None = Converted x
             /\ r = None /\ tail = []
             /\ resp =
                  mkResponse 200 docx_mimetype
                    (Some (fst (splitext (secure_filename env (filename file)))
                           +:+ ".docx"))
                    [("Access-Control-Allow-Origin", "*")] (FileBody x))
            \/ (exists msg,
                  converter env (stream file) 0 None = ConversionError x msg
                  /\ r = Some msg
                  /\ tail = [EvPrint ("Conversion error: " +:+ msg)]
                  /\ resp = with_status 500 (failure ("Conversion failed: " +:+ msg))))
        /\ ((unlink_error env p = None /\ unlink_error env d = None
             /\ cevs = [EvUnlink p None; EvUnlink d None]
             /\ fs w' = fs w)
            \/ (exists e, unlink_error env p = Some e
                  /\ cevs = [EvUnlink p (Some e); EvPrint ("Cleanup error: " +:+ e)]
                  /\ fs w' = <[d := x]> (<[p := stream file]> (fs w)))
            \/ (exists e, unlink_error env p = None /\ unlink_error env d = Some e
                  /\ cevs = [EvUnlink p None; EvUnlink d (Some e);
                             EvPrint ("Cleanup error: " +:+ e)]
                  /\ fs w' = <[d := x]> (fs w)))).
Proof.
  intros Hm. pose proof (validation env req w Hm) as Hv.
  destruct (files req !! "file") as [file|] eqn:Hf; [|left; eauto].
  destruct Hv as [[_ Hr] | [(_ & _ & Hr) | [(_ & _ & _ & Hr) | (_ & _ & _ & Hr)]]];
    [left; eauto | left; eauto | left; eauto |].
  right. rewrite Hr. clear Hr. unfold try_except.
  set (file0 := mkFile (filename file) (stream file) 0).
  destruct (staging_paths env file0 w eq_refl)
    as [(e & Hrun)
       | [(e & p & c & rest & Hfp & Hrun & Hc)
         | (p & d & rest & Hne & Hfp & Hfd & Hrun)]];
    rewrite Hrun; clear Hrun.
  - left. unfold conversion_failed, bind, print, emit, ret. run_step.
    exists e. eexists. split; [reflexivity|]. split; [reflexivity|].
    apply events_since_app.
  - right; left. unfold conversion_failed, bind, print, emit, ret. run_step.
    exists file, e, p, c. eexists. split; [reflexivity|]. split; [exact Hfp|].
    split; [reflexivity|]. split; [reflexivity|]. split; [|exact Hc].
    rewrite <- app_assoc. apply events_since_app.
  - right; right. unfold try_finally.
    set (base := fst (splitext (secure_filename env (filename file0)))).
    set (w2 := mkWorld (<[d := []]> (<[p := stream file0]> (fs w))) rest
                 (trace w ++ [EvCreate p; EvSave p; EvCreate d])).
    assert (H2p : fs w2 !! p = Some (stream file)).
    { subst w2. run_step. rewrite lookup_insert_ne by congruence.
      apply lookup_insert_eq. }
    pose proof (convert_and_send_shape env base p d w2 (stream file) H2p) as Hcs.
    destruct (converter env (stream file) 0 None) as [docx|written msg] eqn:Hconv;
      rewrite Hcs; clear Hcs; subst w2 file0; run_step.
    + destruct (staged_cleanup_disk env p d docx (stream file) (fs w) rest
                  (trace w ++ [EvCreate p; EvSave p; EvCreate d; EvConvert p d None])
                  Hne Hfp Hfd) as (disk & cevs & Hclean & Hcases).
      rewrite <- app_assoc. cbn [app]. rewrite Hclean.
      exists file, p, d, None, docx, cevs, []. do 2 eexists.
      split; [reflexivity|]. split; [exact Hne|]. split; [exact Hfp|].
      split; [exact Hfd|]. split; [reflexivity|]. split.
      { rewrite app_nil_r, <- app_assoc. apply events_since_app. }
      split; [left; auto|]. run_step. exact Hcases.
    + destruct (staged_cleanup_disk env p d written (stream file) (fs w) rest
                  (trace w ++ [EvCreate p; EvSave p; EvCreate d;
                               EvConvert p d (Some msg)])
                  Hne Hfp Hfd) as (disk & cevs & Hclean & Hcases).
      rewrite <- app_assoc. cbn [app]. rewrite Hclean.
      unfold conversion_failed, bind, print, emit, ret. run_step.
      exists file, p, d, (Some msg), written, cevs,
        [EvPrint ("Conversion error: " +:+ msg)].
      do 2 eexists.
      split; [reflexivity|]. split; [exact Hne|]. split; [exact Hfp|].
      split; [exact Hfd|]. split; [reflexivity|]. split.
      { rewrite <- !app_assoc. apply events_since_app. }
      split; [right; exists msg; auto|]. run_step. exact Hcases.
Qed.

Lemma preflight_run (env : Env) (req : Request) (w : World) :
  String.eqb (method req) "OPTIONS" = true ->
  exists resp, convert_pdf env req w = (Ret resp, w) /\ status resp = 200.
Proof.
  intros Hm. unfold convert_pdf. rewrite Hm. eexists. split; reflexivity.
Qed.

(** X1. A file that is on disk when a request arrives has the same content
    when the handler returns, whatever the request and whatever fails: the
    temporary names are fresh, and only temporary files are written or
    removed. *)
Theorem existing_files_untouched (env : Env) (req : Request) (w : World)
    (q : string) (content : list Byte.byte) :
  fs w !! q = Some content ->
  disk_after env req w !! q = Some content.
Proof.
  intros Hq. unfold disk_after.
  destruct (String.eqb (method req) "OPTIONS") eqn:Hm.
  { destruct (preflight_run env req w Hm) as (resp & -> & _). exact Hq. }
  assert (Hfresh : forall p, fs w !! p = None -> p <> q).
  { intros p Hp ->. rewrite Hq in Hp. discriminate. }
  destruct (post_paths env req w Hm)
    as [(msg & Hr)
       | [(e & w' & Hr & Hdisk & _)
         | [(file & e & p0 & c & w' & _ & Hfp & Hr & Hdisk & _)
           | (file & p0 & d0 & r & x & cevs & tail & resp & w' & _ & _ & Hfp & Hfd
                & Hr & _ & _ & Hclean)]]];
    rewrite Hr; cbn [snd].
  - exact Hq.
  - rewrite Hdisk. exact Hq.
  - rewrite Hdisk, lookup_insert_ne by (apply Hfresh; exact Hfp). exact Hq.
  - destruct Hclean as [(_ & _ & _ & ->)
                       | [(e & _ & _ & ->) | (e & _ & _ & _ & ->)]].
    + exact Hq.
    + rewrite !lookup_insert_ne by (apply Hfresh; assumption). exact Hq.
    + rewrite lookup_insert_ne by (apply Hfresh; assumption). exact Hq.
Qed.

Lemma existing_files_untouched_witness :
  disk_after Scenario.env_busy (Scenario.upload "/api/convert" "Report.PDF")
    Cases.w_taken !! "/tmp/tmpa1.pdf" = Some [Byte.x01; Byte.x02].
Proof.
  apply (existing_files_untouched Scenario.env_busy
           (Scenario.upload "/api/convert" "Report.PDF") Cases.w_taken).
  reflexivity.
Defined.



(** X3. Every 500 answer is logged: its error text is "Conversion failed: "
    followed by the message of the exception, and the last line the request
    printed is "Conversion error: " followed by the same message. This holds
    for any exception of the guarded block, a failure of staging included. *)
Theorem server_error_is_logged (env : Env) (req : Request) (w : World)
    (resp : Response) :
  answer env req w = Ret resp ->
  status resp = 500 ->
  exists e evs,
    resp = with_status 500 (failure ("Conversion failed: " +:+ e))
    /\ request_events env req w = (evs ++ [EvPrint ("Conversion error: " +:+ e)])%list.
Proof.
  intros Ha Hst. unfold request_events, answer in *.
  destruct (String.eqb (method req) "OPTIONS") eqn:Hm.
  { destruct (preflight_run env req w Hm) as (resp' & Hr & Hst').
    rewrite Hr in Ha. injection Ha as <-. lia. }
  destruct (post_paths env req w Hm)
    as [(msg & Hr)
       | [(e & w' & Hr & _ & Hev)
         | [(file & e & p0 & c & w' & _ & _ & Hr & _ & Hev & _)
           | (file & p0 & d0 & r & x & cevs & tail & resp' & w' & _ & _ & _ & _
                & Hr & Hev & Hconv & _)]]];
    rewrite Hr in *; cbn [fst snd] in *; injection Ha as <-.
  - discriminate Hst.
  - exists e, []. split; [reflexivity | exact Hev].
  - exists e, [EvCreate p0; EvSave p0]. split; [reflexivity | exact Hev].
  - destruct Hconv as [(_ & _ & _ & ->) | (msg & _ & _ & -> & ->)];
      [discriminate Hst|].
    exists msg, ([EvCreate p0; EvSave p0; EvCreate d0; EvConvert p0 d0 r] ++ cevs)%list.
    split; [reflexivity|]. rewrite Hev, <- app_assoc. reflexivity.
Qed.

Lemma server_error_is_logged_witness :
  exists e evs,
    with_status 500 (failure ("Conversion failed: " +:+ Cases.disk_full_message)) =
      with_status 500 (failure ("Conversion failed: " +:+ e))
    /\ request_events Cases.env_no_space
         (Scenario.upload "/api/convert" "Report.PDF") Scenario.w0 =
       (evs ++ [EvPrint ("Conversion error: " +:+ e)])%list.
Proof.
  apply (server_error_is_logged Cases.env_no_space
           (Scenario.upload "/api/convert" "Report.PDF") Scenario.w0).
  - reflexivity.
  - reflexivity.
Defined.

(** X4. A POST is answered either with a file or with an error, never with
    both: the answer is a 200 whose body is a file sent as an attachment, or
    a 400 or 500 whose body is the JSON object [{"success": false, "error":
    msg}] and nothing else. *)
Theorem answer_is_file_or_error (env : Env) (req : Request) (w : World) :
  method req = "POST" ->
  exists resp,
    answer env req w = Ret resp
    /\ ((status resp = 200
         /\ (exists data, body resp = FileBody data)
         /\ (exists name, disposition resp = Some name))
        \/ ((status resp = 400 \/ status resp = 500)
            /\ exists msg, resp = with_status (status resp) (failure msg))).
Proof.
  intros Hm. unfold answer.
  destruct (post_paths env req w (post_is_not_options req Hm))
    as [(msg & Hr)
       | [(e & w' & Hr & _)
         | [(file & e & p0 & c & w' & _ & _ & Hr & _)
           | (file & p0 & d0 & r & x & cevs & tail & resp' & w' & _ & _ & _ & _
                & Hr & _ & Hconv & _)]]];
    rewrite Hr; cbn [fst].
  - eexists. split; [reflexivity|]. right. split; [left; reflexivity|].
    exists msg. reflexivity.
  - eexists. split; [reflexivity|]. right. split; [right; reflexivity|].
    eexists. reflexivity.
  - eexists. split; [reflexivity|]. right. split; [right; reflexivity|].
    eexists. reflexivity.
  - exists resp'. split; [reflexivity|].
    destruct Hconv as [(_ & _ & _ & ->) | (msg & _ & _ & _ & ->)].
    + left. cbn. eauto.
    + right. split; [right; reflexivity|]. eexists. reflexivity.
Qed.

Lemma answer_is_file_or_error_witness :
  exists resp,
    answer Scenario.env_bad_pdf (Scenario.upload "/api/convert" "Report.PDF")
      Scenario.w0 = Ret resp
    /\ ((status resp = 200
         /\ (exists data, body resp = FileBody data)
         /\ (exists name, disposition resp = Some name))
        \/ ((status resp = 400 \/ status resp = 500)
            /\ exists msg, resp = with_status (status resp) (failure msg))).
Proof.
  apply (answer_is_file_or_error Scenario.env_bad_pdf
           (Scenario.upload "/api/convert" "Report.PDF") Scenario.w0).
  reflexivity.
Defined.

(** The request in which a conversion from [p] to [d] is recorded took the
    path on which both temporary files exist. *)
Lemma conversion_path (env : Env) (req : Request) (w : World) (p d : string)
    (r : option string) :
  In (EvConvert p d r) (request_events env req w) ->
  exists file x cevs tail resp w',
    files req !! "file" = Some file
    /\ p <> d /\ fs w !! p = None /\ fs w !! d = None
    /\ convert_pdf env req w = (Ret resp, w')
    /\ events_since w w' =
         ([EvCreate p; EvSave p; EvCreate d; EvConvert p d r] ++ cevs ++ tail)%list
    /\ ((converter env (stream file) 0 None = Converted x
         /\ r = None /\ tail = [])
        \/ (exists msg,
              converter env (stream file) 0 None = ConversionError x msg
              /\ r = Some msg
              /\ tail = [EvPrint ("Conversion error: " +:+ msg)]))
    /\ ((unlink_error env p = None /\ unlink_error env d = None
         /\ cevs = [EvUnlink p None; EvUnlink d None]
         /\ fs w' = fs w)
        \/ (exists e, unlink_error env p = Some e
              /\ cevs = [EvUnlink p (Some e); EvPrint ("Cleanup error: " +:+ e)]
              /\ fs w' = <[d := x]> (<[p := stream file]> (fs w)))
        \/ (exists e, unlink_error env p = None /\ unlink_error env d = Some e
              /\ cevs = [EvUnlink p None; EvUnlink d (Some e);
                         EvPrint ("Cleanup error: " +:+ e)]
              /\ fs w' = <[d := x]> (fs w))).
Proof.
  intros Hin. unfold request_events in Hin.
  destruct (String.eqb (method req) "OPTIONS") eqn:Hm.
  { destruct (preflight_run env req w Hm) as (resp & Hr & _).
    rewrite Hr in Hin. cbn [snd] in Hin. rewrite events_since_refl in Hin.
    destruct Hin. }
  destruct (post_paths env req w Hm)
    as [(msg & Hr)
       | [(e & w' & Hr & _ & Hev)
         | [(file & e & p0 & c & w' & _ & _ & Hr & _ & Hev & _)
           | (file & p0 & d0 & r0 & x & cevs & tail & resp & w' & Hf & Hne & Hfp
                & Hfd & Hr & Hev & Hconv & Hclean)]]];
    rewrite Hr in Hin; cbn [snd] in Hin.
  - rewrite events_since_refl in Hin. destruct Hin.
  - rewrite Hev in Hin. split_events Hin.
  - rewrite Hev in Hin. split_events Hin.
  - assert (Heq : p0 = p /\ d0 = d /\ r0 = r).
    { rewrite Hev in Hin.
      destruct Hclean as [(_ & _ & -> & _)
                         | [(e & _ & -> & _) | (e & _ & _ & -> & _)]];
        (destruct Hconv as [(_ & _ & -> & _) | (msg & _ & _ & -> & _)];
         cbn [In app] in Hin;
         repeat match type of Hin with
                | _ \/ _ => destruct Hin as [Hin|Hin]
                | False => destruct Hin
                end;
         try discriminate Hin; injection Hin as -> -> ->; auto). }
    destruct Heq as (-> & -> & ->).
    exists file, x, cevs, tail, resp, w'.
    repeat (split; [assumption|]). split; [|exact Hclean].
    destruct Hconv as [(Hc & Hr0 & Ht & _) | (msg & Hc & Hr0 & Ht & _)];
      [left | right; exists msg]; auto.
Qed.

(** X5. When the deletion of the staged PDF raises, the deletion of the
    result file is not attempted: no [os.unlink] is recorded for it, and
    both files stay on disk, the first holding the whole upload. *)
Theorem failed_first_deletion_skips_second (env : Env) (req : Request) (w : World)
    (p d e : string) (r : option string) :
  In (EvConvert p d r) (request_events env req w) ->
  In (EvUnlink p (Some e)) (request_events env req w) ->
  (forall r', ~ In (EvUnlink d r') (request_events env req w))
  /\ is_Some (disk_after env req w !! d)
  /\ exists file,
       files req !! "file" = Some file
       /\ disk_after env req w !! p = Some (stream file).
Proof.
  intros Hconv Hun.
  destruct (conversion_path env req w p d r Hconv)
    as (file & x & cevs & tail & resp & w' & Hf & Hne & _ & _ & Hr & Hev
          & Htail & Hclean).
  unfold request_events, disk_after in *. rewrite Hr in *. cbn [snd] in *.
  rewrite Hev in *.
  assert (Ht : forall q u, ~ In (EvUnlink q u) tail).
  { intros q u Hx.
    destruct Htail as [(_ & _ & ->) | (msg & _ & _ & ->)]; split_events Hx. }
  destruct Hclean as [(_ & _ & -> & _)
                     | [(e1 & _ & -> & Hdisk) | (e1 & _ & _ & -> & _)]].
  - exfalso. cbn [In app] in Hun.
    repeat match type of Hun with
           | _ \/ _ => destruct Hun as [Hun|Hun]
           end; try discriminate Hun.
    exact (Ht _ _ Hun).
  - split; [|split].
    + intros r' Hx. cbn [In app] in Hx.
      repeat match type of Hx with
             | _ \/ _ => destruct Hx as [Hx|Hx]
             end; try discriminate Hx.
      * injection Hx as Hx _. exact (Hne Hx).
      * exact (Ht _ _ Hx).
    + rewrite Hdisk, lookup_insert_eq. eauto.
    + exists file. split; [exact Hf|].
      rewrite Hdisk, lookup_insert_ne by congruence. apply lookup_insert_eq.
  - exfalso. cbn [In app] in Hun.
    repeat match type of Hun with
           | _ \/ _ => destruct Hun as [Hun|Hun]
           end; try discriminate Hun.
    + injection Hun as Hx _. apply Hne. symmetry. exact Hx.
    + exact (Ht _ _ Hun).
Qed.

Lemma failed_first_deletion_skips_second_witness :
  (forall r', ~ In (EvUnlink "/tmp/tmpb2.docx" r')
                (request_events Scenario.env_busy
                   (Scenario.upload "/api/convert" "Report.PDF") Scenario.w0))
  /\ is_Some (disk_after Scenario.env_busy
                (Scenario.upload "/api/convert" "Report.PDF") Scenario.w0
              !! "/tmp/tmpb2.docx").
Proof.
  destruct (failed_first_deletion_skips_second Scenario.env_busy
              (Scenario.upload "/api/convert" "Report.PDF") Scenario.w0
              "/tmp/tmpa1.pdf" "/tmp/tmpb2.docx"
              "[Errno 16] Device or resource busy" None)
    as (Hskip & Hd & _).
  - vm_compute. auto 10.
  - vm_compute. auto 10.
  - split; [exact Hskip | exact Hd].
Defined.

(** X6. When the staged PDF was deleted and the deletion of the result file
    raises, the PDF is gone and the result file stays on disk with what the
    converter wrote in it. *)
Theorem failed_second_deletion_keeps_result (env : Env) (req : Request) (w : World)
    (p d e : string) (r : option string) :
  In (EvConvert p d r) (request_events env req w) ->
  In (EvUnlink d (Some e)) (request_events env req w) ->
  In (EvUnlink p None) (request_events env req w)
  /\ disk_after env req w !! p = None
  /\ exists file,
       files req !! "file" = Some file
       /\ match converter env (stream file) 0 None with
          | Converted x => disk_after env req w !! d = Some x
          | ConversionError x _ => disk_after env req w !! d = Some x
          end.
Proof.
  intros Hconv Hun.
  destruct (conversion_path env req w p d r Hconv)
    as (file & x & cevs & tail & resp & w' & Hf & Hne & Hfp & _ & Hr & Hev
          & Htail & Hclean).
  unfold request_events, disk_after in *. rewrite Hr in *. cbn [snd] in *.
  rewrite Hev in *.
  assert (Ht : forall q u, ~ In (EvUnlink q u) tail).
  { intros q u Hx.
    destruct Htail as [(_ & _ & ->) | (msg & _ & _ & ->)]; split_events Hx. }
  destruct Hclean as [(_ & _ & -> & _)
                     | [(e1 & _ & -> & _) | (e1 & _ & _ & -> & Hdisk)]].
  - exfalso. cbn [In app] in Hun.
    repeat match type of Hun with
           | _ \/ _ => destruct Hun as [Hun|Hun]
           end; try discriminate Hun.
    exact (Ht _ _ Hun).
  - exfalso. cbn [In app] in Hun.
    repeat match type of Hun with
           | _ \/ _ => destruct Hun as [Hun|Hun]
           end; try discriminate Hun.
    + injection Hun as Hx _. exact (Hne Hx).
    + exact (Ht _ _ Hun).
  - split; [cbn [In app]; auto 10|]. split.
    + rewrite Hdisk, lookup_insert_ne by congruence. exact Hfp.
    + exists file. split; [exact Hf|].
      destruct Htail as [(-> & _) | (msg & -> & _)];
        rewrite Hdisk; apply lookup_insert_eq.
Qed.

Lemma failed_second_deletion_keeps_result_witness :
  disk_after Cases.env_docx_busy (Scenario.upload "/api/convert" "Report.PDF")
    Scenario.w0 !! "/tmp/tmpa1.pdf" = None
  /\ In (EvUnlink "/tmp/tmpa1.pdf" None)
       (request_events Cases.env_docx_busy
          (Scenario.upload "/api/convert" "Report.PDF") Scenario.w0).
Proof.
  destruct (failed_second_deletion_keeps_result Cases.env_docx_busy
              (Scenario.upload "/api/convert" "Report.PDF") Scenario.w0
              "/tmp/tmpa1.pdf" "/tmp/tmpb2.docx"
              "[Errno 13] Permission denied" None)
    as (Hin & Hp & _).
  - vm_compute. auto 10.
  - vm_compute. auto 10.
  - split; [exact Hp | exact Hin].
Defined.

(** X7. The converter runs between staging and cleanup: when a request
    invoked it from [p] to [d], the two files had fresh, distinct names, the
    events of the request start with the creation of [p], the save of the
    upload, the creation of [d] and the conversion, the next event is the
    attempt to delete [p], and what follows are deletions and printed lines
    only. *)
Theorem conversion_between_staging_and_cleanup (env : Env) (req : Request)
    (w : World) (p d : string) (r : option string) :
  In (EvConvert p d r) (request_events env req w) ->
  p <> d /\ fs w !! p = None /\ fs w !! d = None
  /\ exists rp rest,
       request_events env req w =
         ([EvCreate p; EvSave p; EvCreate d; EvConvert p d r; EvUnlink p rp]
          ++ rest)%list
       /\ forall ev, In ev rest ->
            (exists q u, ev = EvUnlink q u) \/ (exists m, ev = EvPrint m).
Proof.
  intros Hconv.
  destruct (conversion_path env req w p d r Hconv)
    as (file & x & cevs & tail & resp & w' & _ & Hne & Hfp & Hfd & Hr & Hev
          & Htail & Hclean).
  split; [exact Hne|]. split; [exact Hfp|]. split; [exact Hfd|].
  unfold request_events. rewrite Hr. cbn [snd]. rewrite Hev.
  assert (Ht : forall ev, In ev tail -> exists m, ev = EvPrint m).
  { intros ev Hx.
    destruct Htail as [(_ & _ & ->) | (msg & _ & _ & ->)]; cbn [In] in Hx.
    - destruct Hx.
    - destruct Hx as [<- | []]. eauto. }
  destruct Hclean as [(_ & _ & -> & _)
                     | [(e1 & _ & -> & _) | (e1 & _ & _ & -> & _)]];
    eexists _, _; (split; [reflexivity|]);
    intros ev Hx; cbn [In app] in Hx;
    repeat match type of Hx with
           | _ \/ _ => destruct Hx as [Hx|Hx]
           end; subst; eauto.
Qed.

Lemma conversion_between_staging_and_cleanup_witness :
  request_events Scenario.env_ok (Scenario.upload "/api/convert" "Report.PDF")
    Scenario.w0 =
    [EvCreate "/tmp/tmpa1.pdf"; EvSave "/tmp/tmpa1.pdf"; EvCreate "/tmp/tmpb2.docx";
     EvConvert "/tmp/tmpa1.pdf" "/tmp/tmpb2.docx" None;
     EvUnlink "/tmp/tmpa1.pdf" None; EvUnlink "/tmp/tmpb2.docx" None]
  /\ "/tmp/tmpa1.pdf" <> "/tmp/tmpb2.docx".
Proof.
  destruct (conversion_between_staging_and_cleanup Scenario.env_ok
              (Scenario.upload "/api/convert" "Report.PDF") Scenario.w0
              "/tmp/tmpa1.pdf" "/tmp/tmpb2.docx" None)
    as (Hne & _).
  - vm_compute. auto 10.
  - split; [reflexivity | exact Hne].
Defined.

(** ** Dispatch *)


(** ** The upload stream *)

Lemma body_rewinds (env : Env) (req : Request) (w : World) (file : FileStorage) :
  files req !! "file" = Some file ->
  convert_pdf_body env
    (with_upload req (mkFile (filename file) (stream file) 0)) w =
  convert_pdf_body env req w.
Proof.
  intros Hf. unfold convert_pdf_body, with_upload. cbn [files].
  rewrite lookup_insert_eq, Hf. cbn [filename]. reflexivity.
Qed.

(** X9. The position of the upload stream when the view starts does not
    matter: the view measures the whole stream and rewinds it before saving,
    so a request whose stream was read before behaves as the same request
    with the stream at its start (same answer, same events, same disk). *)
Theorem upload_position_irrelevant (env : Env) (req : Request) (w : World)
    (file : FileStorage) :
  files req !! "file" = Some file ->
  convert_pdf env (with_upload req (mkFile (filename file) (stream file) 0)) w =
  convert_pdf env req w.
Proof.
  intros Hf. unfold convert_pdf.
  change (method (with_upload req (mkFile (filename file) (stream file) 0)))
    with (method req).
  destruct (String.eqb (method req) "OPTIONS"); [reflexivity|].
  unfold try_except. rewrite (body_rewinds env req w file Hf). reflexivity.
Qed.

Lemma upload_position_irrelevant_witness :
  convert_pdf Scenario.env_ok
    (with_upload Scenario.no_file (mkFile "Report.PDF" Scenario.pdf_bytes 0))
    Scenario.w0 =
  convert_pdf Scenario.env_ok (with_upload Scenario.no_file Cases.consumed_upload)
    Scenario.w0.
Proof.
  pose proof (upload_position_irrelevant Scenario.env_ok
                (with_upload Scenario.no_file Cases.consumed_upload) Scenario.w0
                Cases.consumed_upload eq_refl) as H.
  etransitivity; [|exact H]. reflexivity.
Defined.

(** ** The extension check *)

Lemma lower_char_dot (c : ascii) :
  Ascii.eqb (PyStr.lower_char c) "." = Ascii.eqb c ".".
Proof. destruct c as [[] [] [] [] [] [] [] []]; reflexivity. Qed.

Lemma lower_char_idempotent (c : ascii) :
  PyStr.lower_char (PyStr.lower_char c) = PyStr.lower_char c.
Proof. destruct c as [[] [] [] [] [] [] [] []]; reflexivity. Qed.

Lemma lower_idempotent (s : string) : PyStr.lower (PyStr.lower s) = PyStr.lower s.
Proof.
  induction s as [|a r IH]; simpl; [reflexivity|].
  rewrite lower_char_idempotent, IH. reflexivity.
Qed.

Lemma contains_dot_lower (s : string) :
  PyStr.contains "." (PyStr.lower s) = PyStr.contains "." s.
Proof.
  induction s as [|a r IH]; simpl; [reflexivity|].
  rewrite lower_char_dot, IH. reflexivity.
Qed.

Lemma rpartition_dot_lower (s : string) :
  PyStr.rpartition "." (PyStr.lower s) =
    match PyStr.rpartition "." s with
    | Some (pre, post) => Some (PyStr.lower pre, PyStr.lower post)
    | None => None
    end.
Proof.
  induction s as [|a r IH]; simpl; [reflexivity|].
  rewrite IH, lower_char_dot.
  destruct (PyStr.rpartition "." r) as [[pre post]|]; [reflexivity|].
  destruct (Ascii.eqb a "."); reflexivity.
Qed.

Lemma allowed_file_lower (name : string) :
  allowed_file (PyStr.lower name) = allowed_file name.
Proof.
  unfold allowed_file, PyStr.rsplit1.
  rewrite contains_dot_lower, rpartition_dot_lower.
  destruct (PyStr.contains "." name); [|reflexivity].
  destruct (PyStr.rpartition "." name) as [[pre post]|]; simpl.
  - rewrite lower_idempotent. reflexivity.
  - reflexivity.
Qed.

(** X10. The extension check does not see letter case: two file names that
    are equal once lower-cased get the same verdict from [allowed_file]. *)
Theorem allowed_file_ignores_case (a b : string) :
  PyStr.lower a = PyStr.lower b -> allowed_file a = allowed_file b.
Proof.
  intros H. rewrite <- (allowed_file_lower a), <- (allowed_file_lower b), H.
  reflexivity.
Qed.

Lemma allowed_file_ignores_case_witness :
  allowed_file "Report.PdF" = allowed_file "rEPORT.pdf".
Proof.
  apply (allowed_file_ignores_case "Report.PdF" "rEPORT.pdf"). reflexivity.
Defined.

Lemma allowed_file_last_extension (s ext : string) :
  PyStr.contains "." ext = false ->
  allowed_file (s +:+ String "." ext) =
    Ret (bool_decide (PyStr.lower ext ∈ ALLOWED_EXTENSIONS)).
Proof.
  intros Hdot. unfold allowed_file, PyStr.rsplit1.
  rewrite contains_append. simpl. rewrite orb_true_r. simpl.
  rewrite (rpartition_append _ _ _ Hdot). reflexivity.
Qed.

(** X11. Only what follows the last dot counts, whatever precedes it: a name
    that ends in [.pdf] is accepted even when nothing precedes the dot, a
    name that ends in a dot is rejected, and a name whose [.pdf] is followed
    by another extension is rejected. *)
Theorem last_extension_decides (s ext : string) :
  ~ In "."%char (list_ascii_of_string ext) ->
  PyStr.lower ext <> "pdf" ->
  allowed_file (s +:+ ".pdf") = Ret true
  /\ allowed_file ".pdf" = Ret true
  /\ allowed_file (s +:+ ".") = Ret false
  /\ allowed_file (s +:+ ".pdf." +:+ ext) = Ret false.
Proof.
  intros Hdot Hlow. apply contains_false_In in Hdot.
  split; [|split; [|split]].
  - apply (allowed_file_last_extension s "pdf"). reflexivity.
  - reflexivity.
  - apply (allowed_file_last_extension s EmptyString). reflexivity.
  - assert (Happ : s +:+ ".pdf." +:+ ext = (s +:+ ".pdf") +:+ String "." ext).
    { induction s as [|a r IH]; [reflexivity|].
      change (String a (r +:+ ".pdf." +:+ ext) =
              String a ((r +:+ ".pdf") +:+ String "." ext)).
      rewrite IH. reflexivity. }
    rewrite Happ, (allowed_file_last_extension _ ext Hdot).
    f_equal. apply bool_decide_eq_false_2. unfold ALLOWED_EXTENSIONS.
    intros Hin. apply elem_of_singleton in Hin. contradiction.
Qed.

Lemma last_extension_decides_witness :
  allowed_file ("invoice" +:+ ".pdf." +:+ "exe") = Ret false.
Proof.
  refine (proj2 (proj2 (proj2 (last_extension_decides "invoice" "exe" _ _)))).
  - simpl. intros H. repeat (destruct H as [H|H]; [discriminate H|]). exact H.
  - discriminate.
Defined.

(** ** The name of the attachment *)

Lemma rfind_from_absent (c : ascii) (s : string) (i : Z) :
  PyStr.contains c s = false -> PyStr.rfind_from i c s = -1.
Proof.
  revert i. induction s as [|a r IH]; simpl; intros i H; [reflexivity|].
  destruct (Ascii.eqb a c); [discriminate|].
  rewrite (IH (i + 1) H). reflexivity.
Qed.

Lemma rfind_from_last (c : ascii) (pre post : string) (i : Z) :
  0 <= i ->
  PyStr.contains c post = false ->
  PyStr.rfind_from i c (pre +:+ String c post) = i + Z.of_nat (String.length pre).
Proof.
  intros Hi Hpost. revert i Hi.
  induction pre as [|a r IH]; intros i Hi.
  - simpl. rewrite (rfind_from_absent c post (i + 1) Hpost).
    rewrite Ascii.eqb_refl. simpl. lia.
  - change (PyStr.rfind_from i c (String a r +:+ String c post))
      with (let j := PyStr.rfind_from (i + 1) c (r +:+ String c post) in
            if 0 <=? j then j else if Ascii.eqb a c then i else -1).
    rewrite (IH (i + 1)) by lia. cbv zeta.
    destruct (Z.leb_spec 0 (i + 1 + Z.of_nat (String.length r))); [|lia].
    cbn [String.length]. lia.
Qed.

Lemma take_append (a b : string) : PyStr.take (String.length a) (a +:+ b) = a.
Proof. induction a as [|c r IH]; simpl; [destruct b; reflexivity|]. rewrite IH. reflexivity. Qed.

Lemma drop_append (a b : string) : PyStr.drop (String.length a) (a +:+ b) = b.
Proof. induction a as [|c r IH]; simpl; [destruct b; reflexivity | exact IH]. Qed.

Lemma rfind_from_lower (c : ascii) (s : string) (i : Z) :
  0 <= i -> -1 <= PyStr.rfind_from i c s.
Proof.
  revert i. induction s as [|a r IH]; simpl; intros i Hi; [lia|].
  destruct (Z.leb_spec 0 (PyStr.rfind_from (i + 1) c r)); [lia|].
  destruct (Ascii.eqb a c); lia.
Qed.

(** A name without a dot has no extension. *)
Lemma splitext_dotless (p : string) :
  PyStr.contains "." p = false -> splitext p = (p, EmptyString).
Proof.
  intros Hdot. unfold splitext, PyStr.rfind.
  rewrite (rfind_from_absent "." p 0 Hdot).
  pose proof (rfind_from_lower "/" p 0 (Z.le_refl 0)) as Hsep.
  destruct (Z.gtb_spec (-1) (PyStr.rfind_from 0 "/" p)); [lia|]. reflexivity.
Qed.

(** The extension of a name without a slash that does not start with a dot
    is what follows its last dot. *)
Lemma splitext_extension (c : ascii) (b ext : string) :
  c <> "."%char ->
  PyStr.contains "/" (String c b +:+ String "." ext) = false ->
  PyStr.contains "." ext = false ->
  splitext (String c b +:+ String "." ext) = (String c b, String "." ext).
Proof.
  intros Hc Hslash Hdot. unfold splitext, PyStr.rfind.
  rewrite (rfind_from_absent "/" _ 0 Hslash).
  rewrite (rfind_from_last "." (String c b) ext 0) by (lia || exact Hdot).
  set (n := String.length (String c b)).
  assert (Hn : (0 < n)%nat) by (subst n; cbn [String.length]; lia).
  destruct (Z.gtb_spec (0 + Z.of_nat n) (-1)); [|lia].
  cbn [andb].
  assert (Hscan : splitext_scan (String.length (String c b +:+ String "." ext))
                    (String c b +:+ String "." ext) (-1 + 1) (0 + Z.of_nat n) = true).
  { change (-1 + 1) with 0.
    change (String c b +:+ String "." ext) with (String c (b +:+ String "." ext)).
    cbn [String.length splitext_scan].
    destruct (Z.ltb_spec 0 (0 + Z.of_nat n)); [|lia].
    change (Z.to_nat 0) with 0%nat. cbn [String.get].
    destruct (Ascii.eqb_spec c "."); [contradiction | reflexivity]. }
  rewrite Hscan. rewrite Z.add_0_l, Nat2Z.id. subst n.
  rewrite take_append, drop_append. reflexivity.
Qed.

(** The answer of a request whose conversion returned normally. *)
Lemma successful_conversion_answer (env : Env) (req : Request) (w : World)
    (p d : string) :
  In (EvConvert p d None) (request_events env req w) ->
  exists file x,
    files req !! "file" = Some file
    /\ answer env req w =
         Ret (mkResponse 200 docx_mimetype
                (Some (fst (splitext (secure_filename env (filename file)))
                       +:+ ".docx"))
                [("Access-Control-Allow-Origin", "*")] (FileBody x)).
Proof.
  intros Hin. unfold request_events, answer in *.
  destruct (String.eqb (method req) "OPTIONS") eqn:Hm.
  { destruct (preflight_run env req w Hm) as (resp & Hr & _).
    rewrite Hr in Hin. cbn [snd] in Hin. rewrite events_since_refl in Hin.
    destruct Hin. }
  destruct (post_paths env req w Hm)
    as [(msg & Hr)
       | [(e & w' & Hr & _ & Hev)
         | [(file & e & p0 & c & w' & _ & _ & Hr & _ & Hev & _)
           | (file & p0 & d0 & r0 & x & cevs & tail & resp & w' & Hf & _ & _
                & _ & Hr & Hev & Hconv & Hclean)]]];
    rewrite Hr in *; cbn [fst snd] in *.
  - rewrite events_since_refl in Hin. destruct Hin.
  - rewrite Hev in Hin. split_events Hin.
  - rewrite Hev in Hin. split_events Hin.
  - rewrite Hev in Hin.
    destruct Hconv as [(_ & _ & _ & ->) | (msg & _ & -> & -> & _)].
    + exists file, x. split; [exact Hf | reflexivity].
    + exfalso.
      destruct Hclean as [(_ & _ & -> & _)
                         | [(e & _ & -> & _) | (e & _ & _ & -> & _)]];
        split_events Hin.
Qed.

(** X12. The attachment of a successful conversion is named after the
    sanitised file name with its extension replaced, not extended: when
    the sanitised name is [base.ext] (no slash, [base] not starting with a
    dot, no dot in [ext]) the attachment is [base.docx], and when the
    sanitised name has no dot at all the attachment is that name followed by
    [.docx]. *)
Theorem attachment_replaces_extension (env : Env) (req : Request) (w : World)
    (p d : string) (file : FileStorage) :
  In (EvConvert p d None) (request_events env req w) ->
  files req !! "file" = Some file ->
  exists resp,
    answer env req w = Ret resp
    /\ (forall c b ext,
          secure_filename env (filename file) = String c b +:+ String "." ext ->
          c <> "."%char ->
          ~ In "/"%char (list_ascii_of_string (String c b +:+ String "." ext)) ->
          ~ In "."%char (list_ascii_of_string ext) ->
          disposition resp = Some (String c b +:+ ".docx"))
    /\ (~ In "."%char (list_ascii_of_string (secure_filename env (filename file))) ->
        disposition resp = Some (secure_filename env (filename file) +:+ ".docx")).
Proof.
  intros Hin Hf.
  destruct (successful_conversion_answer env req w p d Hin)
    as (file' & x & Hf' & Ha).
  rewrite Hf in Hf'. injection Hf' as <-.
  eexists. split; [exact Ha|]. cbn [disposition]. split.
  - intros c b ext Hs Hc Hslash Hdot. rewrite Hs.
    apply contains_false_In in Hslash, Hdot.
    rewrite (splitext_extension c b ext Hc Hslash Hdot). reflexivity.
  - intros Hdot. apply contains_false_In in Hdot.
    rewrite (splitext_dotless _ Hdot). reflexivity.
Qed.

Lemma attachment_replaces_extension_witness :
  exists resp,
    answer Scenario.env_ok (Scenario.upload "/api/convert" "annual.report.PDF")
      Scenario.w0 = Ret resp
    /\ disposition resp = Some "annual.report.docx".
Proof.
  destruct (attachment_replaces_extension Scenario.env_ok
              (Scenario.upload "/api/convert" "annual.report.PDF") Scenario.w0
              "/tmp/tmpa1.pdf" "/tmp/tmpb2.docx"
              (mkFile "annual.report.PDF" Scenario.pdf_bytes 0))
    as (resp & Ha & Hext & _).
  - vm_compute. auto 10.
  - reflexivity.
  - exists resp. split; [exact Ha|].
    apply (Hext "a"%char "nnual.report" "PDF").
    + reflexivity.
    + discriminate.
    + simpl. intros H. repeat (destruct H as [H|H]; [discriminate H|]). exact H.
    + simpl. intros H. repeat (destruct H as [H|H]; [discriminate H|]). exact H.
Defined.

(** ** What validation looks at *)

(** X13. Validation reads the name and the length of the upload and never
    its content: for a POST, replacing the uploaded bytes by any bytes of the
    same length under the same name changes no 400 answer, neither whether
    the request is rejected nor with which message. *)
Theorem validation_ignores_content (env : Env) (req : Request) (w : World)
    (file file' : FileStorage) :
  method req = "POST" ->
  files req !! "file" = Some file ->
  filename file' = filename file ->
  length (stream file') = length (stream file) ->
  forall resp, status resp = 400 ->
    (answer env req w = Ret resp <-> answer env (with_upload req file') w = Ret resp).
Proof.
  intros Hm Hf Hname Hlen resp Hst.
  assert (Hm' : method (with_upload req file') = "POST") by exact Hm.
  assert (Hf' : files (with_upload req file') !! "file" = Some file').
  { unfold with_upload. cbn [files]. apply lookup_insert_eq. }
  assert (Hsize : upload_size file' = upload_size file).
  { unfold upload_size. rewrite Hlen. reflexivity. }
  assert (Hacc : forall e r f,
            fst (try_except (stage_and_convert e (mkFile (filename f) (stream f) 0))
                   conversion_failed w) <> Ret r \/ status r <> 400).
  { intros e r f.
    destruct (staged_status e (mkFile (filename f) (stream f) 0) w eq_refl)
      as (r' & w' & Hs & Hcode).
    rewrite Hs. cbn [fst].
    destruct (Z.eq_dec (status r) 400) as [E|E]; [left | right; exact E].
    intros Heq. injection Heq as ->. lia. }
  unfold answer.
  destruct (post_validation env req w file Hm Hf)
    as [[He Hr] | [(Hn & Hx & Hr) | [(Hn & Hx & Hs & Hr) | (Hn & Hx & Hs & Hr)]]];
    destruct (post_validation env (with_upload req file') w file' Hm' Hf')
      as [[He' Hr'] | [(Hn' & Hx' & Hr') | [(Hn' & Hx' & Hs' & Hr')
                                           | (Hn' & Hx' & Hs' & Hr')]]];
    rewrite ?Hname, ?Hsize in *; try contradiction; try lia;
    rewrite Hr, Hr'; try tauto.
  split; intros Ha.
  - destruct (Hacc env resp file) as [H | H]; contradiction.
  - pose proof (Hacc env resp file') as H. rewrite Hname in H.
    destruct H as [H | H]; contradiction.
Qed.

Lemma validation_ignores_content_witness :
  answer Scenario.env_ok (Scenario.upload "/api/convert" "Report") Scenario.w0 =
    Ret (with_status 400 (failure "Only PDF files are allowed"))
  <-> answer Scenario.env_ok
        (with_upload (Scenario.upload "/api/convert" "Report")
           (mkFile "Report" Scenario.docx_bytes 0))
        Scenario.w0 =
      Ret (with_status 400 (failure "Only PDF files are allowed")).
Proof.
  apply (validation_ignores_content Scenario.env_ok
           (Scenario.upload "/api/convert" "Report") Scenario.w0
           (mkFile "Report" Scenario.pdf_bytes 0)
           (mkFile "Report" Scenario.docx_bytes 0));
    reflexivity.
Defined.

(** ** Isolation from the state of the disk *)



